(** * samlidp: the administrative layer of the SAML identity provider

    A shallow embedding of package [samlidp] (service.go, user.go,
    shortcut.go, store.go, server.go) and the properties of its resource
    handlers, of the service-provider registry and of the IDP-initiated
    login dispatch.

    Reading guide.
    - Go's [error] values are the inductive [error]; a Go function returning
      [(T, error)] returns [result T], one returning [error] returns
      [option error] ([None] is [nil]).
    - A handler is a program [prog A]: a tree of calls on the collaborators
      of the [Server] struct (the [Store], the logger, bcrypt, the
      [serviceProviders] map) whose answers the environment supplies.
      [run] executes a program on a [Server] state.
    - [sync.RWMutex] is not modelled: requests are executed one at a time.
    - The [context.Context] argument of the [Store] methods is dropped. *)

From Stdlib Require Import String Ascii Strings.Byte NArith List Bool.
From stdpp Require Import base option list gmap strings.

Local Open Scope string_scope.
Local Open Scope list_scope.
#[local] Set Warnings "-register-all".

(** ** Errors *)

(** [ErrNotFound] is [samlidp.ErrNotFound] (store.go), [ErrNotExist] is
    [os.ErrNotExist]; every other error value (a backend failure, an
    encoding/json or bcrypt error) is [ErrOther] with its message. *)
Inductive error : Type :=
| ErrNotFound
| ErrNotExist
| ErrOther (msg : string).

Definition Error (e : error) : string :=
  match e with
  | ErrNotFound => "not found"
  | ErrNotExist => "file does not exist"
  | ErrOther msg => msg
  end.

Inductive result (A : Type) : Type :=
| Ok (a : A)
| Err (e : error).
Arguments Ok {A} a.
Arguments Err {A} e.

#[global] Instance error_eq_dec : EqDecision error.
Proof. solve_decision. Defined.

(** ** encoding/base64, [StdEncoding] *)

Module Base64.

Definition alphabet : string :=
  "ABCDEFGHIJKLMNOPQRSTUVWXYZabcdefghijklmnopqrstuvwxyz0123456789+/".

Definition enc (n : N) : ascii :=
  match String.get (N.to_nat (n mod 64)) alphabet with
  | Some c => c
  | None => "="%char
  end.

Definition dec (c : ascii) : option N :=
  let n := N_of_ascii c in
  if ((65 <=? n) && (n <=? 90))%N then Some (n - 65)%N
  else if ((97 <=? n) && (n <=? 122))%N then Some (n - 71)%N
  else if ((48 <=? n) && (n <=? 57))%N then Some (n + 4)%N
  else if (n =? 43)%N then Some 62%N
  else if (n =? 47)%N then Some 63%N
  else None.

Definition byte_of (n : N) : byte :=
  match Byte.of_N (n mod 256) with
  | Some b => b
  | None => x00
  end.

Fixpoint encode (src : list byte) : list ascii :=
  match src with
  | [] => []
  | [a] =>
      let n := (Byte.to_N a * 65536)%N in
      [enc (n / 262144); enc (n / 4096); "="%char; "="%char]
  | [a; b] =>
      let n := (Byte.to_N a * 65536 + Byte.to_N b * 256)%N in
      [enc (n / 262144); enc (n / 4096); enc (n / 64); "="%char]
  | a :: b :: c :: rest =>
      let n := (Byte.to_N a * 65536 + Byte.to_N b * 256 + Byte.to_N c)%N in
      enc (n / 262144) :: enc (n / 4096) :: enc (n / 64) :: enc n
        :: encode rest
  end.

Definition EncodeToString (src : list byte) : string :=
  string_of_list_ascii (encode src).

Definition pad : ascii := "="%char.

(** Four characters at a time; padding only closes the input. *)
Fixpoint decode (src : list ascii) : option (list byte) :=
  match src with
  | [] => Some []
  | c1 :: c2 :: c3 :: c4 :: rest =>
      match dec c1, dec c2 with
      | Some n1, Some n2 =>
          match dec c3, dec c4 with
          | Some n3, Some n4 =>
              let n := (n1 * 262144 + n2 * 4096 + n3 * 64 + n4)%N in
              match decode rest with
              | Some out =>
                  Some (byte_of (n / 65536) :: byte_of (n / 256)
                          :: byte_of n :: out)
              | None => None
              end
          | Some n3, None =>
              if Ascii.eqb c4 pad then
                match rest with
                | [] =>
                    let n := (n1 * 262144 + n2 * 4096 + n3 * 64)%N in
                    Some [byte_of (n / 65536); byte_of (n / 256)]
                | _ => None
                end
              else None
          | None, _ =>
              if Ascii.eqb c3 pad && Ascii.eqb c4 pad then
                match rest with
                | [] =>
                    let n := (n1 * 262144 + n2 * 4096)%N in
                    Some [byte_of (n / 65536)]
                | _ => None
                end
              else None
          end
      | _, _ => None
      end
  | _ => None
  end.

Definition is_newline (c : ascii) : bool :=
  ((N_of_ascii c =? 10) || (N_of_ascii c =? 13))%N.

(** [DecodeString] skips carriage returns and line feeds. *)
Definition DecodeString (s : string) : option (list byte) :=
  decode (List.filter (fun c => negb (is_newline c)) (list_ascii_of_string s)).

End Base64.

(** ** encoding/json documents *)

(** The document a [json.Decoder] reads from a body or a [json.Encoder]
    writes to it.  A number keeps its literal. *)
Inductive json : Type :=
| JNull
| JBool (b : bool)
| JNumber (lit : string)
| JString (s : string)
| JArray (elems : list json)
| JObject (members : list (string * json)).

Definition kind_name (j : json) : string :=
  match j with
  | JNull => "null"
  | JBool _ => "bool"
  | JNumber _ => "number"
  | JString _ => "string"
  | JArray _ => "array"
  | JObject _ => "object"
  end.

(** [*json.UnmarshalTypeError] *)
Definition UnmarshalTypeError (j : json) (field : string) : error :=
  ErrOther ("json: cannot unmarshal " +:+ kind_name j +:+ " into Go struct field " +:+ field).

Definition lower (c : ascii) : ascii :=
  let n := N_of_ascii c in
  if ((65 <=? n) && (n <=? 90))%N then ascii_of_N (n + 32) else c.

Definition is_byte (n : N) (c : ascii) : bool := (N_of_ascii c =? n)%N.

(** Simple case folding, as far as it can meet an ASCII name: the letters
    A to Z fold to a to z, U+017F (long s, the bytes C5 BF) folds to s and
    U+212A (Kelvin sign, the bytes E2 84 AA) to k; no other rune folds to
    an ASCII letter, and every other byte is kept. *)
Fixpoint fold (s : string) : string :=
  match s with
  | EmptyString => EmptyString
  | String a rest =>
      match rest with
      | String b rest1 =>
          if is_byte 197 a && is_byte 191 b then String "s" (fold rest1)
          else
            match rest1 with
            | String c rest2 =>
                if is_byte 226 a && is_byte 132 b && is_byte 170 c
                then String "k" (fold rest2)
                else String (lower a) (fold rest)
            | EmptyString => String (lower a) (fold rest)
            end
      | EmptyString => String (lower a) EmptyString
      end
  end.

(** [bytes.EqualFold] where one of the names is ASCII, as every tag of this
    package is: equality under simple case folding. *)
Definition EqualFold (s t : string) : bool :=
  String.eqb (fold s) (fold t).

(** The struct field a member name selects: the field whose tag is the name
    itself, and failing that the first field whose tag equals it up to
    case.  A name that selects no field is skipped by the decoder. *)
Definition field_of {F : Type} (fields : list (string * F)) (name : string) : option F :=
  match List.find (fun f => String.eqb (fst f) name) fields with
  | Some f => Some (snd f)
  | None =>
      match List.find (fun f => EqualFold (fst f) name) fields with
      | Some f => Some (snd f)
      | None => None
      end
  end.

(** The decoder follows encoding/json for the field types of this package:
    [null] leaves a string or a bool as it is and empties a pointer or a
    slice, a value of another kind is an [UnmarshalTypeError].  Go reports
    the first such error once the document is read, the functions below at
    once: the handlers drop the struct on any error.  An array is decoded
    into the slice the field holds: an element [null] leaves in place what
    the backing array of the slice holds at its index. *)

(** Decoding one JSON value into a field that holds [old]. *)
Definition into_string (field : string) (j : json) (old : string) : result string :=
  match j with
  | JString s => Ok s
  | JNull => Ok old
  | _ => Err (UnmarshalTypeError j field)
  end.

Definition into_string_ptr (field : string) (j : json) : result (option string) :=
  match j with
  | JString s => Ok (Some s)
  | JNull => Ok None
  | _ => Err (UnmarshalTypeError j field)
  end.

Definition into_bool (field : string) (j : json) (old : bool) : result bool :=
  match j with
  | JBool b => Ok b
  | JNull => Ok old
  | _ => Err (UnmarshalTypeError j field)
  end.

(** A slice while a document is decoded: its elements, and what its
    backing array holds past its length, left there by an earlier and
    longer value of the same field.  Past [slice_spare] the backing array
    holds zero elements, also once it has been grown. *)
Record slice (A : Type) : Type := mkSlice {
  slice_elems : list A;
  slice_spare : list A
}.
Arguments mkSlice {A} slice_elems slice_spare.
Arguments slice_elems {A} s.
Arguments slice_spare {A} s.

(** The elements of an array, each decoded into the element the backing
    array holds at its index. *)
Fixpoint into_elements {A : Type} (into : json -> A -> result A) (zero : A)
    (documents : list json) (backing : list A) : result (list A) :=
  match documents with
  | [] => Ok []
  | j :: rest =>
      match into j (List.hd zero backing),
            into_elements into zero rest (List.tl backing) with
      | Ok x, Ok xs => Ok (x :: xs)
      | Err e, _ => Err e
      | _, Err e => Err e
      end
  end.

(** An array decoded into a slice: the length becomes that of the array,
    and the backing array keeps what it held past it; [null] and the empty
    array give a new slice. *)
Definition into_slice {A : Type} (into : json -> A -> result A) (zero : A)
    (field : string) (j : json) (v : slice A) : result (slice A) :=
  match j with
  | JNull => Ok (mkSlice [] [])
  | JArray [] => Ok (mkSlice [] [])
  | JArray documents =>
      let backing := slice_elems v ++ slice_spare v in
      match into_elements into zero documents backing with
      | Ok xs => Ok (mkSlice xs (List.skipn (List.length documents) backing))
      | Err e => Err e
      end
  | _ => Err (UnmarshalTypeError j field)
  end.

Definition into_string_slice (field : string) (j : json)
    (v : slice string) : result (slice string) :=
  into_slice (into_string field) "" field j v.

Definition is_digit (c : ascii) : bool :=
  let n := N_of_ascii c in ((48 <=? n) && (n <=? 57))%N.

Fixpoint digits_value (acc : N) (s : string) : option N :=
  match s with
  | EmptyString => Some acc
  | String c s' =>
      if is_digit c then digits_value (acc * 10 + (N_of_ascii c - 48))%N s'
      else None
  end.

(** A number literal stored in a [uint8] that holds [old]. *)
Definition into_uint8 (field : string) (j : json) (old : byte) : result byte :=
  match j with
  | JNull => Ok old
  | JNumber lit =>
      match lit with
      | EmptyString => Err (UnmarshalTypeError j field)
      | _ =>
          match digits_value 0 lit with
          | Some n =>
              match Byte.of_N n with
              | Some b => Ok b
              | None => Err (UnmarshalTypeError j field)
              end
          | None => Err (UnmarshalTypeError j field)
          end
      end
  | _ => Err (UnmarshalTypeError j field)
  end.

(** A [[]byte] field takes a base64 string, which gives a new slice, or an
    array of numbers. *)
Definition into_bytes (field : string) (j : json)
    (v : slice byte) : result (slice byte) :=
  match j with
  | JString s =>
      match Base64.DecodeString s with
      | Some b => Ok (mkSlice b [])
      | None => Err (ErrOther "illegal base64 data")
      end
  | _ => into_slice (into_uint8 field) x00 field j v
  end.

(** Decoding the members of an object into a struct value, in the order of
    the document: a later member overrides an earlier one. *)
Fixpoint decode_members {F T : Type} (fields : list (string * F))
    (store : F -> json -> T -> result T)
    (members : list (string * json)) (v : T) : result T :=
  match members with
  | [] => Ok v
  | (name, j) :: rest =>
      match field_of fields name with
      | None => decode_members fields store rest v
      | Some f =>
          match store f j v with
          | Ok v' => decode_members fields store rest v'
          | Err e => Err e
          end
      end
  end.

(** [json.NewDecoder(body).Decode(&v)] on a zero struct [v].  The body is
    the first document of the request body, [None] when the bytes are not a
    JSON document (or the body is empty). *)
Definition Decode {F T : Type} (fields : list (string * F))
    (store : F -> json -> T -> result T)
    (body : option json) (zero : T) : result T :=
  match body with
  | None => Err (ErrOther "json: syntax error")
  | Some JNull => Ok zero
  | Some (JObject members) => decode_members fields store members zero
  | Some j => Err (UnmarshalTypeError j "")
  end.

(** The value of the member [name] of an object, [None] when the document
    has no such member. *)
Definition member (name : string) (j : json) : option json :=
  match j with
  | JObject members =>
      match List.find (fun m => String.eqb (fst m) name) members with
      | Some m => Some (snd m)
      | None => None
      end
  | _ => None
  end.

Definition omitempty_string (name s : string) : list (string * json) :=
  if String.eqb s "" then [] else [(name, JString s)].

(** ** user.go: [User] *)

Record User : Type := mkUser {
  User_Name : string;
  PlaintextPassword : option string;
  HashedPassword : list byte;
  Groups : list string;
  Email : string;
  CommonName : string;
  Surname : string;
  GivenName : string;
  ScopedAffiliation : string
}.

Definition User_zero : User := mkUser "" None [] [] "" "" "" "" "".

Definition set_User_Name (v : string) (u : User) : User :=
  mkUser v (PlaintextPassword u) (HashedPassword u) (Groups u) (Email u)
    (CommonName u) (Surname u) (GivenName u) (ScopedAffiliation u).
Definition set_PlaintextPassword (v : option string) (u : User) : User :=
  mkUser (User_Name u) v (HashedPassword u) (Groups u) (Email u)
    (CommonName u) (Surname u) (GivenName u) (ScopedAffiliation u).
Definition set_HashedPassword (v : list byte) (u : User) : User :=
  mkUser (User_Name u) (PlaintextPassword u) v (Groups u) (Email u)
    (CommonName u) (Surname u) (GivenName u) (ScopedAffiliation u).
Definition set_Groups (v : list string) (u : User) : User :=
  mkUser (User_Name u) (PlaintextPassword u) (HashedPassword u) v (Email u)
    (CommonName u) (Surname u) (GivenName u) (ScopedAffiliation u).
Definition set_Email (v : string) (u : User) : User :=
  mkUser (User_Name u) (PlaintextPassword u) (HashedPassword u) (Groups u) v
    (CommonName u) (Surname u) (GivenName u) (ScopedAffiliation u).
Definition set_CommonName (v : string) (u : User) : User :=
  mkUser (User_Name u) (PlaintextPassword u) (HashedPassword u) (Groups u)
    (Email u) v (Surname u) (GivenName u) (ScopedAffiliation u).
Definition set_Surname (v : string) (u : User) : User :=
  mkUser (User_Name u) (PlaintextPassword u) (HashedPassword u) (Groups u)
    (Email u) (CommonName u) v (GivenName u) (ScopedAffiliation u).
Definition set_GivenName (v : string) (u : User) : User :=
  mkUser (User_Name u) (PlaintextPassword u) (HashedPassword u) (Groups u)
    (Email u) (CommonName u) (Surname u) v (ScopedAffiliation u).
Definition set_ScopedAffiliation (v : string) (u : User) : User :=
  mkUser (User_Name u) (PlaintextPassword u) (HashedPassword u) (Groups u)
    (Email u) (CommonName u) (Surname u) (GivenName u) v.

Inductive UserField : Type :=
| FName | FPlaintextPassword | FHashedPassword | FGroups | FEmail
| FCommonName | FSurname | FGivenName | FScopedAffiliation.

(** The [json:] tags of [User], in the order of the declaration. *)
Definition User_tags : list (string * UserField) :=
  [ ("name", FName);
    ("password", FPlaintextPassword);
    ("hashed_password", FHashedPassword);
    ("groups", FGroups);
    ("email", FEmail);
    ("common_name", FCommonName);
    ("surname", FSurname);
    ("given_name", FGivenName);
    ("scoped_affiliation", FScopedAffiliation) ].

Definition on_result {A B : Type} (r : result A) (f : A -> B) : result B :=
  match r with
  | Ok a => Ok (f a)
  | Err e => Err e
  end.

(** A [User] while a document is decoded into it: the struct, and the
    backing arrays of its two slices past their lengths. *)
Record User_decoding : Type := mkDecoding {
  decoded : User;
  Groups_spare : list string;
  HashedPassword_spare : list byte
}.

Definition with_decoded (d : User_decoding) (u : User) : User_decoding :=
  mkDecoding u (Groups_spare d) (HashedPassword_spare d).

Definition User_store (f : UserField) (j : json) (d : User_decoding) : result User_decoding :=
  let u := decoded d in
  match f with
  | FName =>
      on_result (into_string "User.name" j (User_Name u))
        (fun v => with_decoded d (set_User_Name v u))
  | FPlaintextPassword =>
      on_result (into_string_ptr "User.password" j)
        (fun v => with_decoded d (set_PlaintextPassword v u))
  | FHashedPassword =>
      on_result
        (into_bytes "User.hashed_password" j
           (mkSlice (HashedPassword u) (HashedPassword_spare d)))
        (fun v =>
           mkDecoding (set_HashedPassword (slice_elems v) u)
             (Groups_spare d) (slice_spare v))
  | FGroups =>
      on_result
        (into_string_slice "User.groups" j (mkSlice (Groups u) (Groups_spare d)))
        (fun v =>
           mkDecoding (set_Groups (slice_elems v) u)
             (slice_spare v) (HashedPassword_spare d))
  | FEmail =>
      on_result (into_string "User.email" j (Email u))
        (fun v => with_decoded d (set_Email v u))
  | FCommonName =>
      on_result (into_string "User.common_name" j (CommonName u))
        (fun v => with_decoded d (set_CommonName v u))
  | FSurname =>
      on_result (into_string "User.surname" j (Surname u))
        (fun v => with_decoded d (set_Surname v u))
  | FGivenName =>
      on_result (into_string "User.given_name" j (GivenName u))
        (fun v => with_decoded d (set_GivenName v u))
  | FScopedAffiliation =>
      on_result (into_string "User.scoped_affiliation" j (ScopedAffiliation u))
        (fun v => with_decoded d (set_ScopedAffiliation v u))
  end.

Definition Decode_User (body : option json) : result User :=
  on_result (Decode User_tags User_store body (mkDecoding User_zero [] [])) decoded.

(** [json.NewEncoder(w).Encode(user)]: the members follow the declaration;
    every field but [name] is [omitempty]. *)
Definition Encode_User (u : User) : json :=
  JObject
    ([("name", JString (User_Name u))]
     ++ match PlaintextPassword u with
        | Some p => [("password", JString p)]
        | None => []
        end
     ++ match HashedPassword u with
        | [] => []
        | h => [("hashed_password", JString (Base64.EncodeToString h))]
        end
     ++ match Groups u with
        | [] => []
        | g => [("groups", JArray (List.map JString g))]
        end
     ++ omitempty_string "email" (Email u)
     ++ omitempty_string "common_name" (CommonName u)
     ++ omitempty_string "surname" (Surname u)
     ++ omitempty_string "given_name" (GivenName u)
     ++ omitempty_string "scoped_affiliation" (ScopedAffiliation u)).

(** ** shortcut.go: [Shortcut] *)

Record Shortcut : Type := mkShortcut {
  Shortcut_Name : string;
  ServiceProviderID : string;
  RelayState : option string;
  URISuffixAsRelayState : bool
}.

Definition Shortcut_zero : Shortcut := mkShortcut "" "" None false.

Definition set_Shortcut_Name (v : string) (s : Shortcut) : Shortcut :=
  mkShortcut v (ServiceProviderID s) (RelayState s) (URISuffixAsRelayState s).
Definition set_ServiceProviderID (v : string) (s : Shortcut) : Shortcut :=
  mkShortcut (Shortcut_Name s) v (RelayState s) (URISuffixAsRelayState s).
Definition set_RelayState (v : option string) (s : Shortcut) : Shortcut :=
  mkShortcut (Shortcut_Name s) (ServiceProviderID s) v (URISuffixAsRelayState s).
Definition set_URISuffixAsRelayState (v : bool) (s : Shortcut) : Shortcut :=
  mkShortcut (Shortcut_Name s) (ServiceProviderID s) (RelayState s) v.

Inductive ShortcutField : Type :=
| FShortcutName | FServiceProviderID | FRelayState | FURISuffixAsRelayState.

(** The [json:] tags of [Shortcut]. *)
Definition Shortcut_tags : list (string * ShortcutField) :=
  [ ("name", FShortcutName);
    ("service_provider", FServiceProviderID);
    ("relay_state", FRelayState);
    ("url_suffix_as_relay_state", FURISuffixAsRelayState) ].

Definition Shortcut_store (f : ShortcutField) (j : json) (s : Shortcut) : result Shortcut :=
  match f with
  | FShortcutName =>
      on_result (into_string "Shortcut.name" j (Shortcut_Name s))
        (fun v => set_Shortcut_Name v s)
  | FServiceProviderID =>
      on_result (into_string "Shortcut.service_provider" j (ServiceProviderID s))
        (fun v => set_ServiceProviderID v s)
  | FRelayState =>
      on_result (into_string_ptr "Shortcut.relay_state" j)
        (fun v => set_RelayState v s)
  | FURISuffixAsRelayState =>
      on_result (into_bool "Shortcut.url_suffix_as_relay_state" j (URISuffixAsRelayState s))
        (fun v => set_URISuffixAsRelayState v s)
  end.

Definition Decode_Shortcut (body : option json) : result Shortcut :=
  Decode Shortcut_tags Shortcut_store body Shortcut_zero.

Definition Encode_Shortcut (s : Shortcut) : json :=
  JObject
    ([("name", JString (Shortcut_Name s));
      ("service_provider", JString (ServiceProviderID s))]
     ++ match RelayState s with
        | Some r => [("relay_state", JString r)]
        | None => []
        end
     ++ (if URISuffixAsRelayState s
         then [("url_suffix_as_relay_state", JBool true)] else [])).

(** ** net/http responses *)

Inductive body : Type :=
| NoBody
| Text (s : string)
| Document (j : json).

Record Response : Type := mkResponse {
  Status : nat;
  Body : body
}.

Definition StatusOK : nat := 200.
Definition StatusNoContent : nat := 204.
Definition StatusBadRequest : nat := 400.
Definition StatusInternalServerError : nat := 500.

Definition StatusText (code : nat) : string :=
  if Nat.eqb code 200 then "OK"
  else if Nat.eqb code 204 then "No Content"
  else if Nat.eqb code 400 then "Bad Request"
  else if Nat.eqb code 500 then "Internal Server Error"
  else "".

Definition newline : string := String (ascii_of_N 10) EmptyString.

(** [http.Error(w, error, code)] *)
Definition http_Error (msg : string) (code : nat) : Response :=
  mkResponse code (Text (msg +:+ newline)).

(** What a request ends in: a response written by the handler, or the call
    [s.IDP.ServeIDPInitiated(w, r, serviceProviderID, relayState)] into the
    protocol engine, which writes the response itself. *)
Inductive Outcome : Type :=
| Respond (r : Response)
| ServeIDPInitiated (serviceProviderID relayState : string).

(** ** The parent package [saml] and util.go *)

(** [saml.EntityDescriptor] is declared in the parent package and
    [getSPMetadata] in util.go; this package reads the [EntityID] of a
    descriptor, decodes one from a request body and encodes one with
    [xml.NewEncoder(w).Encode].  They are parameters of the development. *)
Class Saml : Type := {
  EntityDescriptor : Type;
  EntityID : EntityDescriptor -> string;
  getSPMetadata : string -> result EntityDescriptor;
  xml_Encode : EntityDescriptor -> string
}.

Section Samlidp.

Context {saml : Saml}.

(** *** service.go: [Service] *)

Record Service : Type := mkService {
  Service_Name : string;
  Metadata : EntityDescriptor
}.

(** *** store.go: the [Store] interface *)

(** The dynamic type of the [value interface{}] argument of [Get] and
    [Put]: the handlers pass a [*Service], a [*User] or a [*Shortcut]. *)
Inductive kind : Type := KService | KUser | KShortcut.

Definition resource (k : kind) : Type :=
  match k with
  | KService => Service
  | KUser => User
  | KShortcut => Shortcut
  end.

(** A backend with states [St].  A method takes the state of the backend
    and returns the next one with what the Go method returns. *)
Class Store (St : Type) : Type := {
  store_Get : forall k : kind, string -> St -> St * result (resource k);
  store_Put : forall k : kind, string -> resource k -> St -> St * option error;
  store_Delete : string -> St -> St * option error;
  store_List : string -> St -> St * result (list string)
}.

(** [bcrypt.GenerateFromPassword(password, bcrypt.DefaultCost)] draws its
    salt from an entropy source with states [R]. *)
Class Bcrypt (R : Type) : Type := {
  bcrypt_GenerateFromPassword : string -> R -> R * result (list byte)
}.

(** *** Programs *)

(** The calls a handler makes on the fields of [*Server]. *)
Inductive op : Type -> Type :=
| Get (k : kind) (key : string) : op (result (resource k))
| Put (k : kind) (key : string) (value : resource k) : op (option error)
| Delete (key : string) : op (option error)
| List_ (prefix : string) : op (result (list string))
| Printf (msg : string) : op unit
| GenerateFromPassword (password : string) : op (result (list byte))
| LoadServiceProvider (id : string) : op (option EntityDescriptor)
| StoreServiceProvider (id : string) (d : EntityDescriptor) : op unit
| DeleteServiceProvider (id : string) : op unit.

Inductive prog (A : Type) : Type :=
| Ret (a : A)
| Call {X : Type} (c : op X) (k : X -> prog A).
Arguments Ret {A} a.
Arguments Call {A X} c k.

Fixpoint bind {A B : Type} (p : prog A) (f : A -> prog B) : prog B :=
  match p with
  | Ret a => f a
  | Call c k => Call c (fun x => bind (k x) f)
  end.

Definition call {X : Type} (c : op X) : prog X := Call c Ret.

#[global] Instance prog_ret : MRet prog := fun A a => Ret a.
#[global] Instance prog_bind : MBind prog := fun A B f p => bind p f.

(** Every call of the program, whatever the answers to the calls before
    it, satisfies [P]. *)
Inductive AllCalls {A : Type} (P : forall X : Type, op X -> Prop) : prog A -> Prop :=
| AllCalls_Ret (a : A) : AllCalls P (Ret a)
| AllCalls_Call (X : Type) (c : op X) (k : X -> prog A) :
    P X c -> (forall x : X, AllCalls P (k x)) -> AllCalls P (Call c k).

(** *** server.go: [Server] *)

Section Run.

Context {St R : Type} {backend : Store St} {hasher : Bcrypt R}.

(** The state behind a [*Server]: the backend of [Store], the messages
    the [logger] has received (oldest first), the [serviceProviders]
    map, and the entropy source of the process. *)
Record Server : Type := mkServer {
  store : St;
  logger : list string;
  serviceProviders : gmap string EntityDescriptor;
  entropy : R
}.

Definition with_store (s : Server) (st : St) : Server :=
  mkServer st (logger s) (serviceProviders s) (entropy s).
Definition with_logger (s : Server) (l : list string) : Server :=
  mkServer (store s) l (serviceProviders s) (entropy s).
Definition with_serviceProviders (s : Server)
    (m : gmap string EntityDescriptor) : Server :=
  mkServer (store s) (logger s) m (entropy s).
Definition with_entropy (s : Server) (r : R) : Server :=
  mkServer (store s) (logger s) (serviceProviders s) r.

Definition exec {X : Type} (c : op X) (s : Server) : Server * X :=
  match c in op X return Server * X with
  | Get k key =>
      let (st, r) := store_Get k key (store s) in (with_store s st, r)
  | Put k key value =>
      let (st, r) := store_Put k key value (store s) in (with_store s st, r)
  | Delete key =>
      let (st, r) := store_Delete key (store s) in (with_store s st, r)
  | List_ prefix =>
      let (st, r) := store_List prefix (store s) in (with_store s st, r)
  | Printf msg => (with_logger s (logger s ++ [msg]), tt)
  | GenerateFromPassword password =>
      let (r', h) := bcrypt_GenerateFromPassword password (entropy s) in
      (with_entropy s r', h)
  | LoadServiceProvider id => (s, serviceProviders s !! id)
  | StoreServiceProvider id d =>
      (with_serviceProviders s (<[id := d]> (serviceProviders s)), tt)
  | DeleteServiceProvider id =>
      (with_serviceProviders s (delete id (serviceProviders s)), tt)
  end.

Fixpoint run {A : Type} (p : prog A) (s : Server) : Server * A :=
  match p with
  | Ret a => (s, a)
  | Call c k => let (s', x) := exec c s in run (k x) s'
  end.

End Run.

Definition errorf (err : error) : prog unit :=
  call (Printf ("ERROR: " +:+ Error err)).

Definition InternalServerError : Response :=
  http_Error (StatusText StatusInternalServerError) StatusInternalServerError.

Definition BadRequest : Response :=
  http_Error (StatusText StatusBadRequest) StatusBadRequest.

Definition NoContent : Response := mkResponse StatusNoContent NoBody.

(** *** service.go *)

Definition GetServiceProvider (serviceProviderID : string) : prog (result EntityDescriptor) :=
  rv ← call (LoadServiceProvider serviceProviderID);
  match rv with
  | None => mret (Err ErrNotExist)
  | Some rv => mret (Ok rv)
  end.

Definition HandleGetService (id : string) : prog Response :=
  r ← call (Get KService ("/services/" +:+ id));
  match r with
  | Err err => errorf err;; mret InternalServerError
  | Ok service =>
      mret (mkResponse StatusOK (Text (xml_Encode (Metadata service))))
  end.

Definition HandlePutService (id : string) (body : string) : prog Response :=
  match getSPMetadata body with
  | Err err => errorf err;; mret BadRequest
  | Ok metadata =>
      let service := mkService "" metadata in
      err ← call (Put KService ("/services/" +:+ id) service);
      match err with
      | Some err => errorf err;; mret InternalServerError
      | None =>
          call (StoreServiceProvider (EntityID (Metadata service)) (Metadata service));;
          mret NoContent
      end
  end.

Definition HandleDeleteService (id : string) : prog Response :=
  r ← call (Get KService ("/services/" +:+ id));
  match r with
  | Err err => errorf err;; mret InternalServerError
  | Ok service =>
      err ← call (Delete ("/services/" +:+ id));
      match err with
      | Some err => errorf err;; mret InternalServerError
      | None =>
          call (DeleteServiceProvider (EntityID (Metadata service)));;
          mret NoContent
      end
  end.

Fixpoint initializeServices_range (serviceNames : list string) : prog (option error) :=
  match serviceNames with
  | [] => mret None
  | serviceName :: rest =>
      r ← call (Get KService ("/services/" +:+ serviceName));
      match r with
      | Err err => mret (Some err)
      | Ok service =>
          call (StoreServiceProvider (EntityID (Metadata service)) (Metadata service));;
          initializeServices_range rest
      end
  end.

Definition initializeServices : prog (option error) :=
  r ← call (List_ "/services/");
  match r with
  | Err err => mret (Some err)
  | Ok serviceNames => initializeServices_range serviceNames
  end.

(** *** user.go *)

Definition HandleGetUser (id : string) : prog Response :=
  r ← call (Get KUser ("/users/" +:+ id));
  match r with
  | Err err => errorf err;; mret InternalServerError
  | Ok user =>
      let user := set_HashedPassword [] user in
      mret (mkResponse StatusOK (Document (Encode_User user)))
  end.

Definition HandlePutUser_store (id : string) (user : User) : prog Response :=
  let user := set_PlaintextPassword None user in
  err ← call (Put KUser ("/users/" +:+ id) user);
  match err with
  | Some err => errorf err;; mret InternalServerError
  | None => mret NoContent
  end.

Definition HandlePutUser (id : string) (body : option json) : prog Response :=
  match Decode_User body with
  | Err err => errorf err;; mret BadRequest
  | Ok user =>
      let user := set_User_Name id user in
      match PlaintextPassword user with
      | Some password =>
          r ← call (GenerateFromPassword password);
          match r with
          | Err err => errorf err;; mret InternalServerError
          | Ok hashed => HandlePutUser_store id (set_HashedPassword hashed user)
          end
      | None =>
          r ← call (Get KUser ("/users/" +:+ id));
          match r with
          | Ok existingUser =>
              HandlePutUser_store id
                (set_HashedPassword (HashedPassword existingUser) user)
          | Err ErrNotFound => HandlePutUser_store id user
          | Err err => errorf err;; mret InternalServerError
          end
      end
  end.

(** *** shortcut.go *)

Definition HandleGetShortcut (id : string) : prog Response :=
  r ← call (Get KShortcut ("/shortcuts/" +:+ id));
  match r with
  | Err _ => mret InternalServerError
  | Ok shortcut => mret (mkResponse StatusOK (Document (Encode_Shortcut shortcut)))
  end.

Definition HandlePutShortcut (id : string) (body : option json) : prog Response :=
  match Decode_Shortcut body with
  | Err _ => mret BadRequest
  | Ok shortcut =>
      let shortcut := set_Shortcut_Name id shortcut in
      err ← call (Put KShortcut ("/shortcuts/" +:+ id) shortcut);
      match err with
      | Some _ => mret InternalServerError
      | None => mret NoContent
      end
  end.

(** [state] is [ctx.Param("state")]: the empty string on the route
    [/login/:shortcut]. *)
Definition HandleIDPInitiated (shortcutName state : string) : prog Outcome :=
  r ← call (Get KShortcut ("/shortcuts/" +:+ shortcutName));
  match r with
  | Err err => errorf err;; mret (Respond InternalServerError)
  | Ok shortcut =>
      let relayState :=
        match RelayState shortcut with
        | Some fixed => fixed
        | None => if URISuffixAsRelayState shortcut then state else ""
        end in
      mret (ServeIDPInitiated (ServiceProviderID shortcut) relayState)
  end.

End Samlidp.

Arguments Ret {saml A} a.
Arguments Call {saml A X} c k.

(** *** server.go: the routes of [InitializeHTTP] for one resource *)

(** The key of the resource [id] of a kind in the [Store]. *)
Definition path (k : kind) (id : string) : string :=
  match k with
  | KService => "/services/" +:+ id
  | KUser => "/users/" +:+ id
  | KShortcut => "/shortcuts/" +:+ id
  end.

(** [mux.GET("/services/:id", s.HandleGetService)],
    [mux.GET("/users/:id", s.HandleGetUser)] and
    [mux.GET("/shortcuts/:id", s.HandleGetShortcut)]. *)
Definition GET {saml : Saml} (k : kind) (id : string) : prog Response :=
  match k with
  | KService => HandleGetService id
  | KUser => HandleGetUser id
  | KShortcut => HandleGetShortcut id
  end.

(** ** The contract of the [Store] *)

Section Contract.

Context {saml : Saml} {St : Type} {backend : Store St}.

(** [Get] after a successful [Put] on the same key and at the same type
    fetches the value that was put ("Get fetches the data stored in
    key", "Put marshals value and stores it in key"). *)
Definition Get_fetches_Put : Prop :=
  forall (k : kind) (key : string) (value : resource k) (st st' : St),
    store_Put k key value st = (st', None) ->
    exists st'', store_Get k key st' = (st'', Ok value).

End Contract.

(** ** A backend in memory *)

(** The handlers are stated for every backend; the scenarios run on this
    one, which keeps the values themselves under their keys. *)
Section MemoryStore.

Context {saml : Saml}.

Inductive value : Type :=
| VService (s : Service)
| VUser (u : User)
| VShortcut (s : Shortcut).

Definition inject (k : kind) : resource k -> value :=
  match k return resource k -> value with
  | KService => VService
  | KUser => VUser
  | KShortcut => VShortcut
  end.

Definition project (k : kind) (v : value) : option (resource k) :=
  match k return option (resource k) with
  | KService => match v with VService s => Some s | _ => None end
  | KUser => match v with VUser u => Some u | _ => None end
  | KShortcut => match v with VShortcut s => Some s | _ => None end
  end.

Fixpoint TrimPrefix (prefix s : string) : option string :=
  match prefix, s with
  | EmptyString, _ => Some s
  | String a prefix', String b s' =>
      if Ascii.eqb a b then TrimPrefix prefix' s' else None
  | String _ _, EmptyString => None
  end.

Definition MemoryStore_Get (k : kind) (key : string)
    (m : gmap string value) : gmap string value * result (resource k) :=
  match m !! key with
  | None => (m, Err ErrNotFound)
  | Some v =>
      match project k v with
      | Some r => (m, Ok r)
      | None => (m, Err (ErrOther "json: cannot unmarshal"))
      end
  end.

Definition MemoryStore_Put (k : kind) (key : string) (v : resource k)
    (m : gmap string value) : gmap string value * option error :=
  (<[key := inject k v]> m, None).

Definition MemoryStore_Delete (key : string)
    (m : gmap string value) : gmap string value * option error :=
  match m !! key with
  | None => (m, Some ErrNotFound)
  | Some _ => (delete key m, None)
  end.

Definition MemoryStore_List (prefix : string)
    (m : gmap string value) : gmap string value * result (list string) :=
  (m, Ok (omap (fun kv => TrimPrefix prefix (fst kv)) (map_to_list m))).

(** Modelled from the spec: the backends of [Store] are not part of the
    sources; this one follows the contract of section 4.1: [get] fails with
    [NotFound] if no entry exists at the key, [put] overwrites silently,
    [delete] fails with [NotFound] if absent, [list] returns the keys with
    the prefix stripped. *)
#[global] Instance MemoryStore : Store (gmap string value) := {|
  store_Get := MemoryStore_Get;
  store_Put := MemoryStore_Put;
  store_Delete := MemoryStore_Delete;
  store_List := MemoryStore_List
|}.

End MemoryStore.

(** ** Backends that fail *)

(** A backend that is down: every method fails with the same error. *)
Inductive offline : Type := Offline.

Definition unavailable : error := ErrOther "store: backend unavailable".

#[global] Instance OfflineStore {saml : Saml} : Store offline := {|
  store_Get := fun k key st => (st, Err unavailable);
  store_Put := fun k key v st => (st, Some unavailable);
  store_Delete := fun key st => (st, Some unavailable);
  store_List := fun prefix st => (st, Err unavailable)
|}.

(** The backend in memory behind a read-only mount: [Get] and [List]
    answer, [Put] and [Delete] fail. *)
Record readonly {saml : Saml} : Type := Frozen {
  contents : gmap string value
}.

Arguments Frozen {saml} contents.
Arguments contents {saml} r.

Definition read_only : error := ErrOther "store: read-only file system".

#[global] Instance ReadOnlyStore {saml : Saml} : Store readonly := {|
  store_Get := fun k key st => (st, snd (MemoryStore_Get k key (contents st)));
  store_Put := fun k key v st => (st, Some read_only);
  store_Delete := fun key st => (st, Some read_only);
  store_List := fun prefix st => (st, snd (MemoryStore_List prefix (contents st)))
|}.

(** ** Instances for the examples *)

(** A descriptor reduced to its [entityID] attribute and the text of its
    document; the body of a request is the entityID, an empty body does not
    decode. *)
Record Descriptor : Type := mkDescriptor {
  entityID : string;
  document : string
}.

Definition Descriptor_of_body (body : string) : result Descriptor :=
  match body with
  | EmptyString => Err (ErrOther "EOF")
  | _ => Ok (mkDescriptor body ("<EntityDescriptor entityID='" +:+ body +:+ "'/>"))
  end.

#[global] Instance Saml_example : Saml := {|
  EntityDescriptor := Descriptor;
  EntityID := entityID;
  getSPMetadata := Descriptor_of_body;
  xml_Encode := document
|}.

(** A stand-in for bcrypt: the entropy source is a counter, the credential
    is the salt followed by the password in reverse; passwords longer than 72
    bytes are refused. *)
Definition salted (password : string) (salt : nat) : nat * result (list byte) :=
  if Nat.ltb 72 (String.length password)
  then (salt, Err (ErrOther "bcrypt: password length exceeds 72 bytes"))
  else (S salt,
        Ok (Base64.byte_of (N.of_nat salt)
              :: List.rev (list_byte_of_string password))).

#[global] Instance Bcrypt_example : Bcrypt nat := {|
  bcrypt_GenerateFromPassword := salted
|}.

(** *** server.go: [New] *)

(** The [&Server{...}] of [New] over the Store [st] of the options:
    nothing logged yet, an empty [serviceProviders] map. *)
Definition literal {saml : Saml} {St R : Type} (st : St) (r : R) : Server (St := St) (R := R) :=
  mkServer st [] ∅ r.

(** [New(opts)]: the literal, once [initializeServices] has filled its
    registry; an error of [initializeServices] is returned instead of the
    server. *)
Definition New {saml : Saml} {St R : Type} {backend : Store St} {hasher : Bcrypt R}
    (st : St) (r : R) : result (Server (St := St) (R := R)) :=
  match run initializeServices (literal st r) with
  | (s, None) => Ok s
  | (_, Some err) => Err err
  end.

(** ** Vocabulary of the properties *)

#[global] Instance UserField_eq_dec : EqDecision UserField.
Proof. solve_decision. Defined.

(** The member [name] of a request body is decoded into the field [f]. *)
Definition selects (f : UserField) (name : string) : bool :=
  match field_of User_tags name with
  | Some f' => bool_decide (f' = f)
  | None => false
  end.

(** The body of a User PUT has a member for the field [f]. *)
Definition supplies (f : UserField) (body : option json) : bool :=
  match body with
  | Some (JObject members) => existsb (fun m => selects f (fst m)) members
  | _ => false
  end.

(** Predicates on the calls of a program: [P] holds of the key and the
    value of every [Put]. *)
Definition every_Put {saml : Saml}
    (P : forall k : kind, string -> resource k -> Prop) (X : Type) (c : op X) : Prop :=
  match c with
  | Put k key value => P k key value
  | _ => True
  end.

Definition of_User {saml : Saml} (P : string -> User -> Prop)
    (k : kind) : string -> resource k -> Prop :=
  match k with
  | KUser => P
  | _ => fun _ _ => True
  end.

Definition of_Service {saml : Saml} (P : string -> Service -> Prop)
    (k : kind) : string -> resource k -> Prop :=
  match k with
  | KService => P
  | _ => fun _ _ => True
  end.

Definition of_Shortcut {saml : Saml} (P : string -> Shortcut -> Prop)
    (k : kind) : string -> resource k -> Prop :=
  match k with
  | KShortcut => P
  | _ => fun _ _ => True
  end.

(** The call writes the [serviceProviders] map. *)
Definition writes_registry {saml : Saml} {X : Type} (c : op X) : bool :=
  match c with
  | StoreServiceProvider _ _ | DeleteServiceProvider _ => true
  | _ => false
  end.

(** Whether a write of the Store has returned [nil] so far in the request,
    once the call [c] has been answered [x]. *)
Definition committed_after {saml : Saml} {X : Type} (c : op X) (committed : bool) : X -> bool :=
  match c in op X return X -> bool with
  | Put _ _ _ | Delete _ =>
      fun err => match err with None => true | Some _ => committed end
  | _ => fun _ => committed
  end.

(** [Ordered committed p]: on every path of [p], a call that writes the
    [serviceProviders] map comes after a [Put] or a [Delete] of the Store
    that returned [nil] ([committed] tells whether one has, before [p]). *)
Inductive Ordered {saml : Saml} {A : Type} : bool -> prog A -> Prop :=
| Ordered_Ret (committed : bool) (a : A) : Ordered committed (Ret a)
| Ordered_Call (committed : bool) (X : Type) (c : op X) (k : X -> prog A) :
    (writes_registry c = true -> committed = true) ->
    (forall x : X, Ordered (committed_after c committed x) (k x)) ->
    Ordered committed (Call c k).

(** How a PUT ends once its [Put] has returned [out]: no-content, or the
    error logged and the 500 response. *)
Definition Put_outcome {saml : Saml} {St R : Type}
    (s : Server (St := St) (R := R)) (out : St * option error) : Server * Response :=
  match out with
  | (st, None) => (with_store s st, NoContent)
  | (st, Some err) =>
      (with_logger (with_store s st) (logger s ++ ["ERROR: " +:+ Error err]),
       InternalServerError)
  end.

(** The requests of the scenarios. *)
Definition promo_uri : option json :=
  Some (JObject [("service_provider", JString "https://sp.example/meta");
                 ("uri_suffix_as_relay_state", JBool true)]).

Definition promo_url : option json :=
  Some (JObject [("service_provider", JString "https://sp.example/meta");
                 ("url_suffix_as_relay_state", JBool true)]).

(** A body with a credential and no password. *)
Definition hash_only : option json :=
  Some (JObject [("hashed_password", JString "aGk=")]).

(** A body with an e-mail address only. *)
Definition email_only : option json :=
  Some (JObject [("email", JString "bob@example.com")]).

(** A body with a password. *)
Definition with_password : option json :=
  Some (JObject [("name", JString "robert"); ("password", JString "s3cret");
                 ("groups", JArray [JString "staff"])]).

(** The servers of the scenarios, all with an empty registry: [fresh] over
    an empty backend in memory, [seeded] over one that holds the user bob
    and the service sp1, [mixed] over one that holds a Shortcut where a User
    is expected, [frozen] over the read-only mount of the backend of
    [seeded]. *)
Definition fresh : Server (saml := Saml_example) :=
  literal (∅ : gmap string value) 0.

Definition bob : User :=
  mkUser "bob" None (list_byte_of_string "$2a$10$N9qo8uLOickgx2ZMRZoMye")
    ["admins"] "bob@old.example" "Bob" "Builder" "Robert" "staff@old.example".

Definition old_meta : Descriptor :=
  mkDescriptor "https://old.example/meta" "<EntityDescriptor entityID='https://old.example/meta'/>".

Definition sp_meta : Descriptor :=
  mkDescriptor "https://sp.example/meta" "<EntityDescriptor entityID='https://sp.example/meta'/>".

Definition seeded_contents : gmap string value :=
  <["/users/bob" := VUser bob]>
    (<["/services/sp1" := VService (mkService "" sp_meta)]> ∅).

Definition seeded : Server (saml := Saml_example) :=
  literal seeded_contents 0.

Definition mixed : Server (saml := Saml_example) :=
  literal (<["/users/bob" := VShortcut Shortcut_zero]> (∅ : gmap string value)) 0.

Definition frozen : Server (saml := Saml_example) :=
  literal (Frozen seeded_contents) 0.

(** [down]: a server whose backend is down. *)
Definition down : Server (saml := Saml_example) :=
  literal Offline 0.

(** ** The remaining handlers and the routes *)

(** *** user.go: [HandleDeleteUser] *)

Definition HandleDeleteUser {saml : Saml} (id : string) : prog Response :=
  err ← call (Delete ("/users/" +:+ id));
  match err with
  | Some err => errorf err;; mret InternalServerError
  | None => mret NoContent
  end.

(** *** shortcut.go: [HandleDeleteShortcut] *)

Definition HandleDeleteShortcut {saml : Saml} (id : string) : prog Response :=
  err ← call (Delete ("/shortcuts/" +:+ id));
  match err with
  | Some _ => mret InternalServerError
  | None => mret NoContent
  end.

(** *** server.go: [InitializeHTTP] *)

(** A request on one of the routes of a single Service, User or Shortcut,
    or on a login route, with the parameters of its path and its body:
    - [GetService id]: GET /services/:id;
    - [PutService id body]: PATCH or POST /services/:id;
    - [DeleteService id]: DELETE /services/:id;
    - [GetUser], [PutUser] (PATCH), [DeleteUser]: /users/:id;
    - [GetShortcut], [PutShortcut] (PATCH), [DeleteShortcut]: /shortcuts/:id;
    - [Login shortcut state]: /login/:shortcut, where [state] is empty, and
      POST /login/:shortcut/:state.
    The routes of the listings, of the sessions and of the protocol
    engine (/metadata, /sso, /login) are not part of this type. *)
Inductive request : Type :=
| GetService (id : string)
| PutService (id : string) (body : string)
| DeleteService (id : string)
| GetUser (id : string)
| PutUser (id : string) (body : option json)
| DeleteUser (id : string)
| GetShortcut (id : string)
| PutShortcut (id : string) (body : option json)
| DeleteShortcut (id : string)
| Login (shortcut state : string).

(** A handler that writes its response itself. *)
Definition responding {saml : Saml} (p : prog Response) : prog Outcome :=
  r ← p; mret (Respond r).

(** The handler [InitializeHTTP] registers for the route of the request. *)
Definition serve {saml : Saml} (req : request) : prog Outcome :=
  match req with
  | GetService id => responding (HandleGetService id)
  | PutService id body => responding (HandlePutService id body)
  | DeleteService id => responding (HandleDeleteService id)
  | GetUser id => responding (HandleGetUser id)
  | PutUser id body => responding (HandlePutUser id body)
  | DeleteUser id => responding (HandleDeleteUser id)
  | GetShortcut id => responding (HandleGetShortcut id)
  | PutShortcut id body => responding (HandlePutShortcut id body)
  | DeleteShortcut id => responding (HandleDeleteShortcut id)
  | Login shortcut state => HandleIDPInitiated shortcut state
  end.

(** The server after a sequence of requests, served one after the other. *)
Fixpoint serve_all {saml : Saml} {St R : Type} {backend : Store St} {hasher : Bcrypt R}
    (reqs : list request) (s : Server (St := St) (R := R)) : Server :=
  match reqs with
  | [] => s
  | req :: rest => serve_all rest (fst (run (serve req) s))
  end.

(** The key of the Store a request is about. *)
Definition target (req : request) : string :=
  match req with
  | GetService id | PutService id _ | DeleteService id => "/services/" +:+ id
  | GetUser id | PutUser id _ | DeleteUser id => "/users/" +:+ id
  | GetShortcut id | PutShortcut id _ | DeleteShortcut id => "/shortcuts/" +:+ id
  | Login shortcut _ => "/shortcuts/" +:+ shortcut
  end.

(** The requests on the GET routes.  (A login enters the protocol
    engine, whose calls are not those of a handler of this package.) *)
Definition reads_only (req : request) : bool :=
  match req with
  | GetService _ | GetUser _ | GetShortcut _ => true
  | _ => false
  end.

(** The requests on the login routes. *)
Definition is_login (req : request) : bool :=
  match req with
  | Login _ _ => true
  | _ => false
  end.

(** The requests on the routes of a Service that write. *)
Definition on_registry (req : request) : bool :=
  match req with
  | PutService _ _ | DeleteService _ => true
  | _ => false
  end.

(** ** More vocabulary *)

(** Every value the program may return, whatever the answers to its calls,
    satisfies [P]. *)
Inductive AllRets {saml : Saml} {A : Type} (P : A -> Prop) : prog A -> Prop :=
| AllRets_Ret (a : A) : P a -> AllRets P (Ret a)
| AllRets_Call (X : Type) (c : op X) (k : X -> prog A) :
    (forall x : X, AllRets P (k x)) -> AllRets P (Call c k).

(** The call writes the Store. *)
Definition writes_Store {saml : Saml} {X : Type} (c : op X) : bool :=
  match c with
  | Put _ _ _ | Delete _ => true
  | _ => false
  end.

(** The call is a method of the Store, or bcrypt. *)
Definition leaves_process {saml : Saml} {X : Type} (c : op X) : bool :=
  match c with
  | Get _ _ | Put _ _ _ | Delete _ | List_ _ | GenerateFromPassword _ => true
  | _ => false
  end.

(** The call, if it is a method of the Store, is a [Get], a [Put] or a
    [Delete] on [key]. *)
Definition only_on {saml : Saml} (key : string) (X : Type) (c : op X) : Prop :=
  match c with
  | Get _ key' | Put _ key' _ | Delete key' => key' = key
  | List_ _ => False
  | _ => True
  end.

(** The call, if it stores into the [serviceProviders] map, stores a
    descriptor under its own EntityID. *)
Definition stores_under_EntityID {saml : Saml} (X : Type) (c : op X) : Prop :=
  match c with
  | StoreServiceProvider id d => id = EntityID d
  | _ => True
  end.

(** Every entry of the [serviceProviders] map is keyed by the EntityID of
    its descriptor. *)
Definition Keyed {saml : Saml} {St R : Type} (s : Server (St := St) (R := R)) : Prop :=
  forall (e : string) (d : EntityDescriptor),
    serviceProviders s !! e = Some d -> EntityID d = e.

(** The status of the response, [None] for a request handed to the
    protocol engine. *)
Definition status_of (o : Outcome) : option nat :=
  match o with
  | Respond r => Some (Status r)
  | ServeIDPInitiated _ _ => None
  end.

(** The [Get]s of the loop of [initializeServices], in the order of the
    names: the services fetched, or the first error. *)
Fixpoint fetch_all {saml : Saml} {St : Type} {backend : Store St}
    (serviceNames : list string) (st : St) : St * result (list Service) :=
  match serviceNames with
  | [] => (st, Ok [])
  | serviceName :: rest =>
      match store_Get KService ("/services/" +:+ serviceName) st with
      | (st1, Ok service) =>
          match fetch_all rest st1 with
          | (st2, Ok services) => (st2, Ok (service :: services))
          | (st2, Err err) => (st2, Err err)
          end
      | (st1, Err err) => (st1, Err err)
      end
  end.

(** [Get] after a successful [Delete] of the key reports ErrNotFound
    ("Delete removes key", "ErrNotFound is returned from Store.Get() when
    a stored item is not present"). *)
Definition Get_after_Delete {saml : Saml} {St : Type} {backend : Store St} : Prop :=
  forall (key : string) (st st' : St),
    store_Delete key st = (st', None) ->
    forall k : kind, exists st'', store_Get k key st' = (st'', Err ErrNotFound).

(** The status codes of the responses on a route. *)
Definition statuses (req : request) : list (option nat) :=
  match req with
  | GetService _ | GetUser _ | GetShortcut _ =>
      [Some StatusOK; Some StatusInternalServerError]
  | PutService _ _ | PutUser _ _ | PutShortcut _ _ =>
      [Some StatusNoContent; Some StatusBadRequest; Some StatusInternalServerError]
  | DeleteService _ | DeleteUser _ | DeleteShortcut _ =>
      [Some StatusNoContent; Some StatusInternalServerError]
  | Login _ _ => [None; Some StatusInternalServerError]
  end.

(** [mux.DELETE("/services/:id", s.HandleDeleteService)],
    [mux.DELETE("/users/:id", s.HandleDeleteUser)] and
    [mux.DELETE("/shortcuts/:id", s.HandleDeleteShortcut)]. *)
Definition DELETE {saml : Saml} (k : kind) (id : string) : prog Response :=
  match k with
  | KService => HandleDeleteService id
  | KUser => HandleDeleteUser id
  | KShortcut => HandleDeleteShortcut id
  end.

(** The requests on the routes of a Shortcut. *)
Definition on_shortcut (req : request) : bool :=
  match req with
  | GetShortcut _ | PutShortcut _ _ | DeleteShortcut _ => true
  | _ => false
  end.

(** The request failed: a response with a status of 400 and above. *)
Definition failed (o : Outcome) : bool :=
  match o with
  | Respond r => Nat.leb 400 (Status r)
  | ServeIDPInitiated _ _ => false
  end.

(** The message a call hands to the logger. *)
Definition logged {saml : Saml} {X : Type} (c : op X) : list string :=
  match c with
  | Printf msg => [msg]
  | _ => []
  end.

(** [Logs P l p]: on every path of [p], the messages logged so far being
    [l], the messages logged at the end and the value returned satisfy
    [P]. *)
Inductive Logs {saml : Saml} {A : Type} (P : list string -> A -> Prop) :
    list string -> prog A -> Prop :=
| Logs_Ret (l : list string) (a : A) : P l a -> Logs P l (Ret a)
| Logs_Call (l : list string) (X : Type) (c : op X) (k : X -> prog A) :
    (forall x : X, Logs P (l ++ logged c) (k x)) -> Logs P l (Call c k).

(** The EntityIDs of a list of services. *)
Definition EntityIDs {saml : Saml} (services : list Service) : list string :=
  (fun service => EntityID (Metadata service)) <$> services.

(** The [serviceProviders] map [m] once the loop of [initializeServices]
    has stored the services, in their order. *)
Definition registered {saml : Saml} (services : list Service)
    (m : gmap string EntityDescriptor) : gmap string EntityDescriptor :=
  foldl (fun m service => <[EntityID (Metadata service) := Metadata service]> m)
    m services.

(** [utf8.ValidString]: the bytes are the UTF-8 encoding of a text.
    [json.Encoder] writes a string as it is decoded back only if it is one
    (other bytes are replaced); [Encode_User] and [Encode_Shortcut] stand
    for the encoder on such strings. *)
Definition in_range (lo hi : N) (c : ascii) : bool :=
  ((lo <=? N_of_ascii c) && (N_of_ascii c <=? hi))%N.

Fixpoint ValidString (s : string) : bool :=
  match s with
  | EmptyString => true
  | String a rest =>
      if in_range 0 127 a then ValidString rest
      else
        match rest with
        | String b rest1 =>
            if in_range 194 223 a then in_range 128 191 b && ValidString rest1
            else
              match rest1 with
              | String c rest2 =>
                  if in_range 224 239 a then
                    (if in_range 224 224 a then in_range 160 191 b
                     else if in_range 237 237 a then in_range 128 159 b
                     else in_range 128 191 b)
                    && in_range 128 191 c && ValidString rest2
                  else
                    match rest2 with
                    | String d rest3 =>
                        in_range 240 244 a
                        && (if in_range 240 240 a then in_range 144 191 b
                            else if in_range 244 244 a then in_range 128 143 b
                            else in_range 128 191 b)
                        && in_range 128 191 c && in_range 128 191 d
                        && ValidString rest3
                    | EmptyString => false
                    end
              | EmptyString => false
              end
        | EmptyString => false
        end
  end.

Definition Text_Shortcut (shortcut : Shortcut) : bool :=
  ValidString (Shortcut_Name shortcut)
  && ValidString (ServiceProviderID shortcut)
  && match RelayState shortcut with
     | Some relayState => ValidString relayState
     | None => true
     end.

Definition Text_User (u : User) : bool :=
  ValidString (User_Name u)
  && match PlaintextPassword u with
     | Some password => ValidString password
     | None => true
     end
  && forallb ValidString (Groups u)
  && ValidString (Email u)
  && ValidString (CommonName u)
  && ValidString (Surname u)
  && ValidString (GivenName u)
  && ValidString (ScopedAffiliation u).

(** * Properties *)

Section Properties.

Context {saml : Saml} {St R : Type} {backend : Store St} {hasher : Bcrypt R}.

Implicit Types (s : Server (St := St) (R := R)) (st : St).
Implicit Types (id key : string) (e : error).

(** ** Running a program *)

Lemma run_bind {A B : Type} (p : prog A) (f : A -> prog B) s :
  run (bind p f) s = let (s', a) := run p s in run (f a) s'.
Proof.
  revert s. induction p as [a | X c k IH]; intros s; simpl; [done |].
  destruct (exec c s) as [s' x]. apply IH.
Qed.

Lemma run_errorf e s :
  run (errorf e) s = (with_logger s (logger s ++ ["ERROR: " +:+ Error e]), tt).
Proof. reflexivity. Qed.

(** ** The registry *)

Lemma run_GetServiceProvider id s :
  run (GetServiceProvider id) s =
    (s, match serviceProviders s !! id with
        | Some d => Ok d
        | None => Err ErrNotExist
        end).
Proof.
  unfold GetServiceProvider. simpl. by destruct (serviceProviders s !! id).
Qed.

(** ** GET of one resource *)

Lemma run_GET_Err (k : kind) id e s st :
  store_Get k (path k id) (store s) = (st, Err e) ->
  snd (run (GET k id) s) = InternalServerError.
Proof.
  intros H. destruct k; simpl in *; rewrite H; reflexivity.
Qed.

Lemma run_HandleGetService_Ok id (service : Service) s st :
  store_Get KService ("/services/" +:+ id) (store s) = (st, Ok service) ->
  run (HandleGetService id) s =
    (with_store s st,
     mkResponse StatusOK (Text (xml_Encode (Metadata service)))).
Proof. intros H. unfold HandleGetService. simpl. rewrite H. reflexivity. Qed.

Lemma run_HandleGetUser_Ok id (user : User) s st :
  store_Get KUser ("/users/" +:+ id) (store s) = (st, Ok user) ->
  run (HandleGetUser id) s =
    (with_store s st,
     mkResponse StatusOK (Document (Encode_User (set_HashedPassword [] user)))).
Proof. intros H. unfold HandleGetUser. simpl. rewrite H. reflexivity. Qed.

(** ** PUT and DELETE of a Service *)

Lemma run_HandlePutService_BadRequest id body e s :
  getSPMetadata body = Err e ->
  run (HandlePutService id body) s =
    (with_logger s (logger s ++ ["ERROR: " +:+ Error e]), BadRequest).
Proof. intros H. unfold HandlePutService. rewrite H. reflexivity. Qed.

Lemma run_HandlePutService_Put_fails id body m e s st :
  getSPMetadata body = Ok m ->
  store_Put KService ("/services/" +:+ id) (mkService "" m) (store s) = (st, Some e) ->
  run (HandlePutService id body) s =
    (with_logger (with_store s st) (logger s ++ ["ERROR: " +:+ Error e]),
     InternalServerError).
Proof.
  intros Hm H. unfold HandlePutService. rewrite Hm. simpl. rewrite H. reflexivity.
Qed.

Lemma run_HandlePutService_Put_succeeds id body m s st :
  getSPMetadata body = Ok m ->
  store_Put KService ("/services/" +:+ id) (mkService "" m) (store s) = (st, None) ->
  run (HandlePutService id body) s =
    (with_serviceProviders (with_store s st)
       (<[EntityID m := m]> (serviceProviders s)),
     NoContent).
Proof.
  intros Hm H. unfold HandlePutService. rewrite Hm. simpl. rewrite H. reflexivity.
Qed.

(** A Service PUT that answers no-content decoded its body, and its [Put]
    returned [nil]. *)
Lemma HandlePutService_NoContent_inv id body s :
  snd (run (HandlePutService id body) s) = NoContent ->
  exists m st,
    getSPMetadata body = Ok m /\
    store_Put KService ("/services/" +:+ id) (mkService "" m) (store s) = (st, None).
Proof.
  intros H.
  destruct (getSPMetadata body) as [m | e] eqn:Hm.
  - destruct (store_Put KService ("/services/" +:+ id) (mkService "" m) (store s))
      as [st [e |]] eqn:HP.
    + rewrite (run_HandlePutService_Put_fails _ _ _ _ _ _ Hm HP) in H. discriminate.
    + eauto.
  - rewrite (run_HandlePutService_BadRequest _ _ _ _ Hm) in H. discriminate.
Qed.

Lemma run_HandleDeleteService_Get_fails id e s st :
  store_Get KService ("/services/" +:+ id) (store s) = (st, Err e) ->
  run (HandleDeleteService id) s =
    (with_logger (with_store s st) (logger s ++ ["ERROR: " +:+ Error e]),
     InternalServerError).
Proof. intros H. unfold HandleDeleteService. simpl. rewrite H. reflexivity. Qed.

Lemma run_HandleDeleteService_Delete_fails id (service : Service) e s st st' :
  store_Get KService ("/services/" +:+ id) (store s) = (st, Ok service) ->
  store_Delete ("/services/" +:+ id) st = (st', Some e) ->
  run (HandleDeleteService id) s =
    (with_logger (with_store s st') (logger s ++ ["ERROR: " +:+ Error e]),
     InternalServerError).
Proof.
  intros H H'. unfold HandleDeleteService. simpl. rewrite H. simpl. rewrite H'.
  reflexivity.
Qed.

Lemma run_HandleDeleteService_Delete_succeeds id (service : Service) s st st' :
  store_Get KService ("/services/" +:+ id) (store s) = (st, Ok service) ->
  store_Delete ("/services/" +:+ id) st = (st', None) ->
  run (HandleDeleteService id) s =
    (with_serviceProviders (with_store s st')
       (delete (EntityID (Metadata service)) (serviceProviders s)),
     NoContent).
Proof.
  intros H H'. unfold HandleDeleteService. simpl. rewrite H. simpl. rewrite H'.
  reflexivity.
Qed.


(** C6. On each of the routes GET /services/:id, /users/:id and
    /shortcuts/:id, a Get of the Store that fails with ErrNotFound and a
    Get that fails with any other error [e] produce the same response,
    the 500 of [http.Error]. *)
Theorem GET_NotFound_same_as_any_failure (k : kind) id e s s' st st' :
  store_Get k (path k id) (store s) = (st, Err ErrNotFound) ->
  store_Get k (path k id) (store s') = (st', Err e) ->
  snd (run (GET k id) s) = InternalServerError /\
  snd (run (GET k id) s') = snd (run (GET k id) s).
Proof.
  intros H H'.
  rewrite (run_GET_Err _ _ _ _ _ H), (run_GET_Err _ _ _ _ _ H'). done.
Qed.

(** C7. A Service PUT that answers no-content with metadata whose
    EntityID differs from [e_old] leaves the registry entry of [e_old]
    in place, whatever the Store held at the id: the registry then maps
    [e_old] to the old descriptor and the new EntityID to the new one. *)
Theorem PUT_does_not_evict_old_EntityID id body (m_new d_old : EntityDescriptor)
    (e_old : string) s :
  serviceProviders s !! e_old = Some d_old ->
  getSPMetadata body = Ok m_new ->
  EntityID m_new <> e_old ->
  snd (run (HandlePutService id body) s) = NoContent ->
  let s' := fst (run (HandlePutService id body) s) in
  serviceProviders s' !! e_old = Some d_old /\
  serviceProviders s' !! EntityID m_new = Some m_new.
Proof.
  intros Hold Hm Hne H.
  destruct (HandlePutService_NoContent_inv _ _ _ H) as (m' & st & Hm' & HP).
  assert (m' = m_new) as -> by congruence.
  rewrite (run_HandlePutService_Put_succeeds _ _ _ _ _ Hm HP). simpl.
  rewrite lookup_insert_ne by done. rewrite lookup_insert_eq. done.
Qed.

Ltac ordered :=
  repeat first
    [ apply Ordered_Ret
    | apply Ordered_Call; [ simpl; first [ discriminate | done ] | intros ?; simpl ]
    | match goal with
      | |- Ordered _ (match ?x with _ => _ end) => destruct x
      end
    | progress cbn [mbind mret prog_bind prog_ret bind call errorf] ].

Lemma Ordered_head {A : Type} (committed : bool) (p : prog A) :
  Ordered committed p ->
  match p with
  | Ret _ => True
  | Call c _ => writes_registry c = true -> committed = true
  end.
Proof. intros H. destruct H; done. Qed.

(** A program that writes the map before any write of the Store is not
    [Ordered]. *)
Lemma Ordered_rejects_an_early_write id (d : EntityDescriptor) :
  ~ Ordered false
      (call (StoreServiceProvider id d);;
       call (Put KService "/services/x" (mkService "" d))).
Proof. intros H. apply Ordered_head in H. simpl in H. by specialize (H eq_refl). Qed.

Lemma Ordered_HandlePutService id body : Ordered false (HandlePutService id body).
Proof. unfold HandlePutService. ordered. Qed.

Lemma Ordered_HandleDeleteService id : Ordered false (HandleDeleteService id).
Proof. unfold HandleDeleteService. ordered. Qed.

(** C8. The registry follows the Store.  In the programs of Service PUT
    and Service DELETE, a write of [serviceProviders] only comes after a
    [Put] or [Delete] of the Store that returned [nil].  On a Service PUT,
    a [Put] that returns an error gives the 500 response and leaves
    [serviceProviders] as it was, and [serviceProviders] differs after
    the request only if the [Put] returned [nil], in which case it is the
    old map with the new descriptor inserted.  On a Service DELETE, an
    error of the [Get] or of the [Delete] gives the 500 response and
    leaves [serviceProviders] as it was (after a failed [Get] the Store
    is in the state that [Get] left), and [serviceProviders] differs
    after the request only if the [Delete] returned [nil]. *)
Theorem registry_mutated_only_after_Store_success id s :
  (forall body, Ordered false (HandlePutService id body)) /\
  Ordered false (HandleDeleteService id) /\
  (forall body,
     let s' := fst (run (HandlePutService id body) s) in
     (forall m st e,
        getSPMetadata body = Ok m ->
        store_Put KService ("/services/" +:+ id) (mkService "" m) (store s)
          = (st, Some e) ->
        snd (run (HandlePutService id body) s) = InternalServerError /\
        serviceProviders s' = serviceProviders s) /\
     (serviceProviders s' <> serviceProviders s ->
      exists m st,
        getSPMetadata body = Ok m /\
        store_Put KService ("/services/" +:+ id) (mkService "" m) (store s)
          = (st, None) /\
        store s' = st /\
        serviceProviders s' = <[EntityID m := m]> (serviceProviders s))) /\
  (let s' := fst (run (HandleDeleteService id) s) in
   (forall st e,
      store_Get KService ("/services/" +:+ id) (store s) = (st, Err e) ->
      snd (run (HandleDeleteService id) s) = InternalServerError /\
      store s' = st /\
      serviceProviders s' = serviceProviders s) /\
   (forall (service : Service) st st' e,
      store_Get KService ("/services/" +:+ id) (store s) = (st, Ok service) ->
      store_Delete ("/services/" +:+ id) st = (st', Some e) ->
      snd (run (HandleDeleteService id) s) = InternalServerError /\
      serviceProviders s' = serviceProviders s) /\
   (serviceProviders s' <> serviceProviders s ->
    exists (service : Service) st st',
      store_Get KService ("/services/" +:+ id) (store s) = (st, Ok service) /\
      store_Delete ("/services/" +:+ id) st = (st', None) /\
      store s' = st' /\
      serviceProviders s' =
        delete (EntityID (Metadata service)) (serviceProviders s))).
Proof.
  split; [intros body; apply Ordered_HandlePutService |].
  split; [apply Ordered_HandleDeleteService |].
  split.
  - intros body s'. split.
    + intros m st e Hm HP. subst s'.
      rewrite (run_HandlePutService_Put_fails _ _ _ _ _ _ Hm HP). done.
    + subst s'. intros Hne.
      destruct (getSPMetadata body) as [m | e] eqn:Hm.
      * destruct (store_Put KService ("/services/" +:+ id) (mkService "" m) (store s))
          as [st [e |]] eqn:HP.
        -- rewrite (run_HandlePutService_Put_fails _ _ _ _ _ _ Hm HP) in Hne.
           by destruct Hne.
        -- rewrite (run_HandlePutService_Put_succeeds _ _ _ _ _ Hm HP).
           exists m, st. done.
      * rewrite (run_HandlePutService_BadRequest _ _ _ _ Hm) in Hne.
        by destruct Hne.
  - intros s'. split; [| split].
    + intros st e HG. subst s'.
      rewrite (run_HandleDeleteService_Get_fails _ _ _ _ HG). done.
    + intros service st st' e HG HD. subst s'.
      rewrite (run_HandleDeleteService_Delete_fails _ _ _ _ _ _ HG HD). done.
    + subst s'. intros Hne.
      destruct (store_Get KService ("/services/" +:+ id) (store s))
        as [st [service | e]] eqn:HG.
      * destruct (store_Delete ("/services/" +:+ id) st) as [st' [e |]] eqn:HD.
        -- rewrite (run_HandleDeleteService_Delete_fails _ _ _ _ _ _ HG HD) in Hne.
           by destruct Hne.
        -- rewrite (run_HandleDeleteService_Delete_succeeds _ _ _ _ _ HG HD).
           exists service, st, st'. done.
      * rewrite (run_HandleDeleteService_Get_fails _ _ _ _ HG) in Hne.
        by destruct Hne.
Qed.

(** C9. [New] over a Store that lists one name under /services/ and holds
    there a Service whose EntityID is https://sp.example/meta returns a
    server (its [initializeServices] returns [nil]) on which
    [GetServiceProvider] returns the stored descriptor for that EntityID
    and [os.ErrNotExist] for every other id.  On every server,
    [GetServiceProvider] returns [os.ErrNotExist] exactly when
    [serviceProviders] has no entry for the id. *)
Theorem initializeServices_then_GetServiceProvider
    (st st1 st2 : St) (r : R) (name : string) (service : Service) :
  store_List "/services/" st = (st1, Ok [name]) ->
  store_Get KService ("/services/" +:+ name) st1 = (st2, Ok service) ->
  EntityID (Metadata service) = "https://sp.example/meta" ->
  (exists s,
     New st r = Ok s /\
     snd (run (GetServiceProvider "https://sp.example/meta") s)
       = Ok (Metadata service) /\
     (forall id, id <> "https://sp.example/meta" ->
        snd (run (GetServiceProvider id) s) = Err ErrNotExist)) /\
  (forall s id,
     snd (run (GetServiceProvider id) s) = Err ErrNotExist <->
     serviceProviders s !! id = None).
Proof.
  intros HL HG HE.
  assert (run initializeServices (literal st r) =
            (mkServer st2 [] (<[EntityID (Metadata service) := Metadata service]> ∅) r,
             None)) as Hrun.
  { unfold initializeServices, literal. simpl. rewrite HL. simpl. rewrite HG.
    reflexivity. }
  split.
  - eexists. unfold New. rewrite Hrun. split; [reflexivity |].
    rewrite HE. split.
    + rewrite run_GetServiceProvider. cbn [snd serviceProviders].
      by rewrite lookup_insert_eq.
    + intros id Hid. rewrite run_GetServiceProvider. cbn [snd serviceProviders].
      rewrite lookup_insert_ne by done. by rewrite lookup_empty.
  - intros s id. rewrite run_GetServiceProvider. cbn [snd].
    destruct (serviceProviders s !! id); split; intros; done.
Qed.

(** ** PUT of a User *)

Lemma run_HandlePutUser_store id (user : User) s :
  run (HandlePutUser_store id user) s =
    Put_outcome s
      (store_Put KUser ("/users/" +:+ id) (set_PlaintextPassword None user) (store s)).
Proof.
  unfold HandlePutUser_store. simpl.
  destruct (store_Put KUser ("/users/" +:+ id) (set_PlaintextPassword None user) (store s))
    as [st [e |]]; reflexivity.
Qed.

Lemma run_HandlePutUser_existing id body (u existing : User) s st :
  Decode_User body = Ok u ->
  PlaintextPassword u = None ->
  store_Get KUser ("/users/" +:+ id) (store s) = (st, Ok existing) ->
  run (HandlePutUser id body) s =
    Put_outcome (with_store s st)
      (store_Put KUser ("/users/" +:+ id)
         (mkUser id None (HashedPassword existing) (Groups u) (Email u)
            (CommonName u) (Surname u) (GivenName u) (ScopedAffiliation u)) st).
Proof.
  intros Hu Hp HG. unfold HandlePutUser. rewrite Hu. cbn [set_User_Name PlaintextPassword].
  rewrite Hp. cbn -[HandlePutUser_store]. rewrite HG.
  cbn -[HandlePutUser_store]. apply run_HandlePutUser_store.
Qed.

Lemma run_HandlePutUser_NotFound id body (u : User) s st :
  Decode_User body = Ok u ->
  PlaintextPassword u = None ->
  store_Get KUser ("/users/" +:+ id) (store s) = (st, Err ErrNotFound) ->
  run (HandlePutUser id body) s =
    Put_outcome (with_store s st)
      (store_Put KUser ("/users/" +:+ id)
         (mkUser id None (HashedPassword u) (Groups u) (Email u)
            (CommonName u) (Surname u) (GivenName u) (ScopedAffiliation u)) st).
Proof.
  intros Hu Hp HG. unfold HandlePutUser. rewrite Hu. cbn [set_User_Name PlaintextPassword].
  rewrite Hp. cbn -[HandlePutUser_store]. rewrite HG.
  cbn -[HandlePutUser_store]. apply run_HandlePutUser_store.
Qed.

Lemma run_HandlePutUser_Get_fails id body (u : User) e s st :
  Decode_User body = Ok u ->
  PlaintextPassword u = None ->
  store_Get KUser ("/users/" +:+ id) (store s) = (st, Err e) ->
  e <> ErrNotFound ->
  run (HandlePutUser id body) s =
    (with_logger (with_store s st) (logger s ++ ["ERROR: " +:+ Error e]),
     InternalServerError).
Proof.
  intros Hu Hp HG He. unfold HandlePutUser. rewrite Hu.
  cbn [set_User_Name PlaintextPassword]. rewrite Hp.
  cbn -[HandlePutUser_store]. rewrite HG.
  destruct e; [done | reflexivity | reflexivity].
Qed.

Lemma run_HandlePutUser_password id body (u : User) (password : string) s :
  Decode_User body = Ok u ->
  PlaintextPassword u = Some password ->
  run (HandlePutUser id body) s =
    match bcrypt_GenerateFromPassword password (entropy s) with
    | (r, Ok hashed) =>
        Put_outcome (with_entropy s r)
          (store_Put KUser ("/users/" +:+ id)
             (mkUser id None hashed (Groups u) (Email u)
                (CommonName u) (Surname u) (GivenName u) (ScopedAffiliation u))
             (store s))
    | (r, Err e) =>
        (with_logger (with_entropy s r) (logger s ++ ["ERROR: " +:+ Error e]),
         InternalServerError)
    end.
Proof.
  intros Hu Hp. unfold HandlePutUser. rewrite Hu.
  cbn [set_User_Name PlaintextPassword]. rewrite Hp.
  cbn -[HandlePutUser_store].
  destruct (bcrypt_GenerateFromPassword password (entropy s)) as [r [hashed | e]].
  - cbn -[HandlePutUser_store]. rewrite run_HandlePutUser_store. reflexivity.
  - reflexivity.
Qed.

Lemma run_HandlePutUser_BadRequest id body e s :
  Decode_User body = Err e ->
  run (HandlePutUser id body) s =
    (with_logger s (logger s ++ ["ERROR: " +:+ Error e]), BadRequest).
Proof. intros H. unfold HandlePutUser. rewrite H. reflexivity. Qed.

Lemma Put_outcome_NoContent_inv s (out : St * option error) :
  snd (Put_outcome s out) = NoContent ->
  snd out = None /\ store (fst (Put_outcome s out)) = fst out.
Proof. destruct out as [st [e |]]; simpl; [discriminate | done]. Qed.

(** A User PUT that answers no-content has put, successfully, a record
    named by the id and without plaintext password; the Store is in the
    state this [Put] left. *)
Lemma HandlePutUser_NoContent_inv id body s :
  snd (run (HandlePutUser id body) s) = NoContent ->
  exists (record : User) st,
    User_Name record = id /\
    PlaintextPassword record = None /\
    store_Put KUser ("/users/" +:+ id) record st
      = (store (fst (run (HandlePutUser id body) s)), None).
Proof.
  intros H.
  destruct (Decode_User body) as [u | e] eqn:Hu.
  2: { rewrite (run_HandlePutUser_BadRequest _ _ _ _ Hu) in H. discriminate. }
  destruct (PlaintextPassword u) as [password |] eqn:Hp.
  - rewrite (run_HandlePutUser_password _ _ _ _ _ Hu Hp) in H |- *.
    destruct (bcrypt_GenerateFromPassword password (entropy s)) as [r [hashed | e]];
      [| discriminate].
    destruct (Put_outcome_NoContent_inv _ _ H) as [Hnil Hst].
    eexists _, _. split; [| split]; [| | rewrite Hst, <- Hnil; apply surjective_pairing];
      reflexivity.
  - destruct (store_Get KUser ("/users/" +:+ id) (store s)) as [st [existing | e]] eqn:HG.
    + rewrite (run_HandlePutUser_existing _ _ _ _ _ _ Hu Hp HG) in H |- *.
      destruct (Put_outcome_NoContent_inv _ _ H) as [Hnil Hst].
      eexists _, _. split; [| split]; [| | rewrite Hst, <- Hnil; apply surjective_pairing];
        reflexivity.
    + destruct (decide (e = ErrNotFound)) as [-> | He].
      * rewrite (run_HandlePutUser_NotFound _ _ _ _ _ Hu Hp HG) in H |- *.
        destruct (Put_outcome_NoContent_inv _ _ H) as [Hnil Hst].
        eexists _, _. split; [| split];
          [| | rewrite Hst, <- Hnil; apply surjective_pairing]; reflexivity.
      * rewrite (run_HandlePutUser_Get_fails _ _ _ _ _ _ Hu Hp HG He) in H.
        discriminate.
Qed.

(** ** The decoder of User *)

(** A field that no member of the object selects keeps its value. *)
Lemma decode_members_untouched {A : Type} (f : UserField) (proj : User -> A) :
  (forall f' j (d d' : User_decoding),
     f' <> f -> User_store f' j d = Ok d' -> proj (decoded d') = proj (decoded d)) ->
  forall members (d d' : User_decoding),
    existsb (fun m => selects f (fst m)) members = false ->
    decode_members User_tags User_store members d = Ok d' ->
    proj (decoded d') = proj (decoded d).
Proof.
  intros Hstore members.
  induction members as [| [name j] rest IH]; intros d d' Hex Hdec; simpl in *.
  - congruence.
  - apply orb_false_iff in Hex as [Hsel Hex]. unfold selects in Hsel.
    destruct (field_of User_tags name) as [f' |]; [| by apply IH].
    destruct (User_store f' j d) as [d1 |] eqn:Hst; [| discriminate].
    rewrite (IH _ _ Hex Hdec). apply (Hstore f' j); [| done].
    intros ->. by rewrite bool_decide_eq_true_2 in Hsel.
Qed.

Lemma Decode_User_untouched {A : Type} (f : UserField) (proj : User -> A) :
  (forall f' j (d d' : User_decoding),
     f' <> f -> User_store f' j d = Ok d' -> proj (decoded d') = proj (decoded d)) ->
  forall body (u : User),
    supplies f body = false ->
    Decode_User body = Ok u ->
    proj u = proj User_zero.
Proof.
  intros Hstore body u Hs Hd. unfold Decode_User, Decode in Hd.
  destruct body as [[| | | | | members] |]; try discriminate.
  - simpl in Hd. congruence.
  - destruct (decode_members User_tags User_store members
                (mkDecoding User_zero [] [])) as [d' |] eqn:Hdec; [| discriminate].
    simpl in Hd. injection Hd as <-.
    exact (decode_members_untouched f proj Hstore members _ _ Hs Hdec).
Qed.

Ltac User_store_other :=
  let f' := fresh "f" in
  let j := fresh "j" in
  let d := fresh "d" in
  let d' := fresh "d" in
  let Hne := fresh "Hne" in
  let H := fresh "H" in
  intros f' j d d' Hne H;
  destruct f'; try (by destruct Hne); simpl in H;
  match type of H with
  | on_result ?r _ = _ => destruct r; simpl in H; simplify_eq; reflexivity
  end.

Lemma omitted_HashedPassword body (u : User) :
  supplies FHashedPassword body = false -> Decode_User body = Ok u ->
  HashedPassword u = [].
Proof. apply (Decode_User_untouched FHashedPassword HashedPassword). User_store_other. Qed.

Lemma omitted_Groups body (u : User) :
  supplies FGroups body = false -> Decode_User body = Ok u -> Groups u = [].
Proof. apply (Decode_User_untouched FGroups Groups). User_store_other. Qed.

Lemma omitted_Email body (u : User) :
  supplies FEmail body = false -> Decode_User body = Ok u -> Email u = "".
Proof. apply (Decode_User_untouched FEmail Email). User_store_other. Qed.

Lemma omitted_CommonName body (u : User) :
  supplies FCommonName body = false -> Decode_User body = Ok u -> CommonName u = "".
Proof. apply (Decode_User_untouched FCommonName CommonName). User_store_other. Qed.

Lemma omitted_Surname body (u : User) :
  supplies FSurname body = false -> Decode_User body = Ok u -> Surname u = "".
Proof. apply (Decode_User_untouched FSurname Surname). User_store_other. Qed.

Lemma omitted_GivenName body (u : User) :
  supplies FGivenName body = false -> Decode_User body = Ok u -> GivenName u = "".
Proof. apply (Decode_User_untouched FGivenName GivenName). User_store_other. Qed.

Lemma omitted_ScopedAffiliation body (u : User) :
  supplies FScopedAffiliation body = false -> Decode_User body = Ok u ->
  ScopedAffiliation u = "".
Proof.
  apply (Decode_User_untouched FScopedAffiliation ScopedAffiliation). User_store_other.
Qed.

(** ** The calls of the PUT handlers *)

Ltac calls :=
  repeat first
    [ apply AllCalls_Ret
    | apply AllCalls_Call; [ simpl | intros ? ]
    | match goal with
      | |- AllCalls _ (match ?x with _ => _ end) => destruct x eqn:?
      end
    | progress cbn [mbind mret prog_bind prog_ret bind call errorf] ].

Lemma HandlePutUser_sets_Name id body :
  AllCalls (every_Put (of_User (fun key record => User_Name record = id)))
    (HandlePutUser id body).
Proof. unfold HandlePutUser, HandlePutUser_store. calls; try exact I; reflexivity. Qed.

Lemma HandlePutShortcut_sets_Name id body :
  AllCalls (every_Put (of_Shortcut (fun key record => Shortcut_Name record = id)))
    (HandlePutShortcut id body).
Proof. unfold HandlePutShortcut. calls; try exact I; reflexivity. Qed.

Lemma HandlePutService_leaves_Name_empty id body :
  AllCalls (every_Put (of_Service (fun key record => Service_Name record = "")))
    (HandlePutService id body).
Proof. unfold HandlePutService. calls; try exact I; reflexivity. Qed.

(** C2 (the code departs from the claim).  The record a User PUT or a
    Shortcut PUT hands to [Put] is named by the id of the URL, whatever
    name the body supplied; the record a Service PUT hands to [Put] has
    the empty [Name], whatever the id: [HandlePutService] never assigns
    [service.Name]. *)
Theorem PUT_names_the_record_except_for_Service id :
  (forall body,
     AllCalls (every_Put (of_User (fun key record => User_Name record = id)))
       (HandlePutUser id body)) /\
  (forall body,
     AllCalls (every_Put (of_Shortcut (fun key record => Shortcut_Name record = id)))
       (HandlePutShortcut id body)) /\
  (forall body,
     AllCalls (every_Put (of_Service (fun key record => Service_Name record = "")))
       (HandlePutService id body)).
Proof.
  split; [| split]; intros body.
  - apply HandlePutUser_sets_Name.
  - apply HandlePutShortcut_sets_Name.
  - apply HandlePutService_leaves_Name_empty.
Qed.

(** The three paths of a User PUT whose body decodes to [u] without
    plaintext password: if the [Get] at /users/:id fetches an existing record, the
    record put carries the [HashedPassword] of the existing record; if
    the [Get] fails with ErrNotFound, the record put carries the
    [HashedPassword] decoded from the body, which is empty when the body
    has no [hashed_password] member; if the [Get] fails with any other
    error, the request ends with the 500 response in the state the [Get]
    left, the error logged, and no [Put] is made. *)
Theorem PUT_User_without_password id body (u : User) s :
  Decode_User body = Ok u ->
  PlaintextPassword u = None ->
  (forall st (existing : User),
     store_Get KUser ("/users/" +:+ id) (store s) = (st, Ok existing) ->
     run (HandlePutUser id body) s =
       Put_outcome (with_store s st)
         (store_Put KUser ("/users/" +:+ id)
            (mkUser id None (HashedPassword existing) (Groups u) (Email u)
               (CommonName u) (Surname u) (GivenName u) (ScopedAffiliation u)) st)) /\
  (forall st,
     store_Get KUser ("/users/" +:+ id) (store s) = (st, Err ErrNotFound) ->
     run (HandlePutUser id body) s =
       Put_outcome (with_store s st)
         (store_Put KUser ("/users/" +:+ id)
            (mkUser id None (HashedPassword u) (Groups u) (Email u)
               (CommonName u) (Surname u) (GivenName u) (ScopedAffiliation u)) st) /\
     (supplies FHashedPassword body = false -> HashedPassword u = [])) /\
  (forall st e,
     store_Get KUser ("/users/" +:+ id) (store s) = (st, Err e) ->
     e <> ErrNotFound ->
     run (HandlePutUser id body) s =
       (with_logger (with_store s st) (logger s ++ ["ERROR: " +:+ Error e]),
        InternalServerError)).
Proof.
  intros Hu Hp. split; [| split].
  - intros st existing HG. by apply run_HandlePutUser_existing.
  - intros st HG. split; [by apply run_HandlePutUser_NotFound |].
    intros Hs. by apply (omitted_HashedPassword body u).
  - intros st e HG He. exact (run_HandlePutUser_Get_fails _ _ _ _ _ _ Hu Hp HG He).
Qed.

(** ** GET of a User *)

Lemma Encode_User_without_hash (u : User) :
  member "hashed_password" (Encode_User (set_HashedPassword [] u)) = None.
Proof.
  destruct u as [n p h g e c sn gn sa]. unfold Encode_User, member, omitempty_string.
  destruct p, g, e, c, sn, gn, sa; reflexivity.
Qed.

Lemma Encode_User_without_password (u : User) :
  PlaintextPassword u = None ->
  member "password" (Encode_User (set_HashedPassword [] u)) = None.
Proof.
  destruct u as [n p h g e c sn gn sa]. simpl. intros ->.
  unfold Encode_User, member, omitempty_string.
  destruct g, e, c, sn, gn, sa; reflexivity.
Qed.

(** C4. Every record a User PUT hands to [Put] has no plaintext password.
    A User GET that fetches the record [u] answers with the encoding of
    [u] without its [HashedPassword]: the document has no
    [hashed_password] member, and no [password] member when [u] has no
    plaintext password.  So, on a Store whose Get fetches what was Put, the
    GET that follows a PUT that answered no-content returns a document
    with neither member. *)
Theorem User_password_never_stored_nor_returned id :
  (forall body,
     AllCalls (every_Put (of_User (fun key record => PlaintextPassword record = None)))
       (HandlePutUser id body)) /\
  (forall s st (u : User),
     store_Get KUser ("/users/" +:+ id) (store s) = (st, Ok u) ->
     let doc := Encode_User (set_HashedPassword [] u) in
     snd (run (HandleGetUser id) s) = mkResponse StatusOK (Document doc) /\
     member "hashed_password" doc = None /\
     (PlaintextPassword u = None -> member "password" doc = None)) /\
  (Get_fetches_Put ->
   forall body s,
     snd (run (HandlePutUser id body) s) = NoContent ->
     exists doc,
       snd (run (HandleGetUser id) (fst (run (HandlePutUser id body) s)))
         = mkResponse StatusOK (Document doc) /\
       member "password" doc = None /\
       member "hashed_password" doc = None).
Proof.
  split; [| split].
  - intros body. unfold HandlePutUser, HandlePutUser_store.
    calls; try exact I; reflexivity.
  - intros s st u HG doc. subst doc.
    rewrite (run_HandleGetUser_Ok _ _ _ _ HG). cbn [snd].
    split; [reflexivity |]. split.
    + apply Encode_User_without_hash.
    + apply Encode_User_without_password.
  - intros law body s H.
    destruct (HandlePutUser_NoContent_inv _ _ _ H) as (record & st & _ & Hp & HP).
    destruct (law KUser _ _ _ _ HP) as [st' HG].
    rewrite (run_HandleGetUser_Ok _ _ _ _ HG). cbn [snd].
    eexists. split; [reflexivity |]. split.
    + by apply Encode_User_without_password.
    + apply Encode_User_without_hash.
Qed.


(** ** Shortcuts *)

Lemma run_HandleIDPInitiated_Ok shortcutName state (shortcut : Shortcut) s st :
  store_Get KShortcut ("/shortcuts/" +:+ shortcutName) (store s) = (st, Ok shortcut) ->
  run (HandleIDPInitiated shortcutName state) s =
    (with_store s st,
     ServeIDPInitiated (ServiceProviderID shortcut)
       match RelayState shortcut with
       | Some fixed => fixed
       | None => if URISuffixAsRelayState shortcut then state else ""
       end).
Proof. intros H. unfold HandleIDPInitiated. simpl. rewrite H. reflexivity. Qed.

Lemma HandlePutShortcut_NoContent_inv id body s :
  snd (run (HandlePutShortcut id body) s) = NoContent ->
  exists (shortcut : Shortcut),
    Decode_Shortcut body = Ok shortcut /\
    store_Put KShortcut ("/shortcuts/" +:+ id) (set_Shortcut_Name id shortcut) (store s)
      = (store (fst (run (HandlePutShortcut id body) s)), None).
Proof.
  unfold HandlePutShortcut.
  destruct (Decode_Shortcut body) as [shortcut | e]; [| discriminate].
  simpl.
  destruct (store_Put KShortcut ("/shortcuts/" +:+ id) (set_Shortcut_Name id shortcut)
              (store s)) as [st [e |]] eqn:HP; [discriminate |].
  intros _. exists shortcut. done.
Qed.

(** C5 (amended).  An IDP-initiated login whose [Get] fetches the
    shortcut hands (shortcut.ServiceProviderID, relayState) to
    [ServeIDPInitiated], where relayState is the fixed [RelayState] of
    the shortcut when it is set, else the [state] segment of the request
    when [URISuffixAsRelayState] is true, else the empty string.  On a
    Store whose Get fetches what was Put: after PUT /shortcuts/promo with
    the body of members service_provider = https://sp.example/meta and
    url_suffix_as_relay_state = true has answered no-content,
    POST /login/promo/campaign42 resolves the relay state campaign42 and
    the target https://sp.example/meta. *)
Theorem IDP_initiated_relay_state_precedence shortcutName state (shortcut : Shortcut) s st :
  store_Get KShortcut ("/shortcuts/" +:+ shortcutName) (store s) = (st, Ok shortcut) ->
  (forall fixed,
     RelayState shortcut = Some fixed ->
     snd (run (HandleIDPInitiated shortcutName state) s)
       = ServeIDPInitiated (ServiceProviderID shortcut) fixed) /\
  (RelayState shortcut = None -> URISuffixAsRelayState shortcut = true ->
     snd (run (HandleIDPInitiated shortcutName state) s)
       = ServeIDPInitiated (ServiceProviderID shortcut) state) /\
  (RelayState shortcut = None -> URISuffixAsRelayState shortcut = false ->
     snd (run (HandleIDPInitiated shortcutName state) s)
       = ServeIDPInitiated (ServiceProviderID shortcut) "") /\
  (Get_fetches_Put ->
   forall s0 : Server (St := St) (R := R),
     snd (run (HandlePutShortcut "promo" promo_url) s0) = NoContent ->
     snd (run (HandleIDPInitiated "promo" "campaign42")
            (fst (run (HandlePutShortcut "promo" promo_url) s0)))
       = ServeIDPInitiated "https://sp.example/meta" "campaign42").
Proof.
  intros HG. rewrite (run_HandleIDPInitiated_Ok _ _ _ _ _ HG). cbn [snd].
  split; [| split; [| split]].
  - by intros fixed ->.
  - by intros -> ->.
  - by intros -> ->.
  - intros law s0 H.
    destruct (HandlePutShortcut_NoContent_inv _ _ _ H) as (sc & Hsc & HP).
    assert (sc = mkShortcut "" "https://sp.example/meta" None true) as ->.
    { vm_compute in Hsc. congruence. }
    destruct (law KShortcut _ _ _ _ HP) as [st' HG'].
    rewrite (run_HandleIDPInitiated_Ok _ _ _ _ _ HG'). reflexivity.
Qed.

End Properties.

(** * The backend in memory and the scenarios *)

Lemma project_inject {saml : Saml} (k : kind) (v : resource k) :
  project k (inject k v) = Some v.
Proof. destruct k; reflexivity. Qed.

(** The backend in memory honours the contract. *)
Lemma MemoryStore_Get_fetches_Put {saml : Saml} :
  Get_fetches_Put (St := gmap string value).
Proof.
  intros k key v st st' H. simpl in H. unfold MemoryStore_Put in H.
  injection H as <-. exists (<[key := inject k v]> st).
  simpl. unfold MemoryStore_Get. rewrite lookup_insert_eq.
  by rewrite project_inject.
Qed.

(** C2, at a request: PUT /services/sp1 on the empty backend answers
    no-content and leaves under /services/sp1 a Service whose Name is empty,
    not sp1. *)
Lemma PUT_Service_sp1_stores_empty_Name :
  snd (run (HandlePutService "sp1" "https://sp.example/meta") fresh) = NoContent /\
  store (fst (run (HandlePutService "sp1" "https://sp.example/meta") fresh))
    !! "/services/sp1" = Some (VService (mkService "" sp_meta)).
Proof. split; vm_compute; reflexivity. Qed.


(** C3 (the code departs from the claim).  The body of PUT /users/bob has a
    hashed_password member and no password.  On a Store without
    /users/bob the fetch reports ErrNotFound, the request answers
    no-content, and the record stored carries the credential of the body,
    where the claim has no credential.  On a Store that holds bob, the
    same request stores the credential of the existing record: the path of
    an existing record, like the path of a password, overwrites what the
    body supplied. *)
Lemma PUT_User_NotFound_stores_the_credential_of_the_body :
  Decode_User hash_only
    = Ok (mkUser "" None (list_byte_of_string "hi") [] "" "" "" "" "") /\
  snd (store_Get KUser "/users/bob" (store fresh)) = Err ErrNotFound /\
  snd (run (HandlePutUser "bob" hash_only) fresh) = NoContent /\
  store (fst (run (HandlePutUser "bob" hash_only) fresh)) !! "/users/bob"
    = Some (VUser (mkUser "bob" None (list_byte_of_string "hi") [] "" "" "" "" "")) /\
  list_byte_of_string "hi" <> [] /\
  store (fst (run (HandlePutUser "bob" hash_only) seeded)) !! "/users/bob"
    = Some (VUser (mkUser "bob" None (HashedPassword bob) [] "" "" "" "" "")).
Proof.
  split; [vm_compute; reflexivity |]. split; [vm_compute; reflexivity |].
  split; [vm_compute; reflexivity |]. split; [vm_compute; reflexivity |].
  split; [discriminate | vm_compute; reflexivity].
Qed.

(** C5, as stated, fails: after PUT /shortcuts/promo with the members
    service_provider and uri_suffix_as_relay_state = true has answered
    no-content, POST /login/promo/campaign42 resolves the empty relay
    state: no field of Shortcut carries the tag uri_suffix_as_relay_state,
    and the decoder skips the member. *)
Lemma promo_uri_resolves_the_empty_relay_state :
  Decode_Shortcut promo_uri
    = Ok (mkShortcut "" "https://sp.example/meta" None false) /\
  snd (run (HandlePutShortcut "promo" promo_uri) fresh) = NoContent /\
  snd (run (HandleIDPInitiated "promo" "campaign42")
         (fst (run (HandlePutShortcut "promo" promo_uri) fresh)))
    = ServeIDPInitiated "https://sp.example/meta" "" /\
  snd (run (HandleIDPInitiated "promo" "campaign42")
         (fst (run (HandlePutShortcut "promo" promo_uri) fresh)))
    <> ServeIDPInitiated "https://sp.example/meta" "campaign42".
Proof.
  split; [reflexivity |].
  split; [vm_compute; reflexivity |].
  assert (snd (run (HandleIDPInitiated "promo" "campaign42")
                 (fst (run (HandlePutShortcut "promo" promo_uri) fresh)))
          = ServeIDPInitiated "https://sp.example/meta" "") as ->
    by (vm_compute; reflexivity).
  split; [reflexivity | discriminate].
Qed.

(** * The theorems at work *)


Lemma GET_NotFound_same_as_any_failure_witness :
  snd (run (GET KUser "bob") fresh) = InternalServerError /\
  snd (run (GET KUser "bob") mixed) = snd (run (GET KUser "bob") fresh).
Proof.
  apply (GET_NotFound_same_as_any_failure (saml := Saml_example)
           KUser "bob" (ErrOther "json: cannot unmarshal") fresh mixed
           (store fresh) (store mixed)).
  - vm_compute. reflexivity.
  - vm_compute. reflexivity.
Defined.

Lemma PUT_does_not_evict_old_EntityID_witness :
  serviceProviders
    (fst (run (HandlePutService "sp1" "https://sp.example/meta")
            (fst (run (HandlePutService "sp1" "https://old.example/meta") fresh))))
    !! "https://old.example/meta" = Some old_meta /\
  serviceProviders
    (fst (run (HandlePutService "sp1" "https://sp.example/meta")
            (fst (run (HandlePutService "sp1" "https://old.example/meta") fresh))))
    !! "https://sp.example/meta" = Some sp_meta.
Proof.
  apply (PUT_does_not_evict_old_EntityID (saml := Saml_example)
           "sp1" "https://sp.example/meta" sp_meta old_meta "https://old.example/meta"
           (fst (run (HandlePutService "sp1" "https://old.example/meta") fresh))).
  - vm_compute. reflexivity.
  - reflexivity.
  - vm_compute. discriminate.
  - vm_compute. reflexivity.
Defined.

Lemma registry_mutated_only_after_Store_success_witness :
  (snd (run (HandlePutService "sp1" "https://old.example/meta") frozen)
     = InternalServerError /\
   serviceProviders (fst (run (HandlePutService "sp1" "https://old.example/meta") frozen))
     = serviceProviders frozen) /\
  (snd (run (HandleDeleteService "sp1") frozen) = InternalServerError /\
   serviceProviders (fst (run (HandleDeleteService "sp1") frozen))
     = serviceProviders frozen).
Proof.
  split.
  - apply (proj1 (proj1 (proj2 (proj2 (registry_mutated_only_after_Store_success
                                         (saml := Saml_example) "sp1" frozen)))
                    "https://old.example/meta")
             old_meta (store frozen) read_only).
    + reflexivity.
    + reflexivity.
  - apply (proj1 (proj2 (proj2 (proj2 (proj2
                    (registry_mutated_only_after_Store_success
                       (saml := Saml_example) "sp1" frozen)))))
             (mkService (saml := Saml_example) "" sp_meta)
             (store frozen) (store frozen) read_only).
    + vm_compute. reflexivity.
    + reflexivity.
Defined.

Lemma initializeServices_then_GetServiceProvider_witness :
  exists s : Server (saml := Saml_example),
    New seeded_contents 0 = Ok s /\
    snd (run (GetServiceProvider "https://sp.example/meta") s) = Ok sp_meta /\
    snd (run (GetServiceProvider "https://old.example/meta") s) = Err ErrNotExist.
Proof.
  destruct (initializeServices_then_GetServiceProvider (saml := Saml_example)
              seeded_contents seeded_contents seeded_contents 0 "sp1"
              (mkService (saml := Saml_example) "" sp_meta))
    as [(s & HNew & Hfound & Hother) _].
  - vm_compute. reflexivity.
  - vm_compute. reflexivity.
  - reflexivity.
  - exists s. split; [exact HNew |]. split; [exact Hfound |].
    apply Hother. discriminate.
Defined.

Lemma PUT_User_without_password_witness :
  run (HandlePutUser "bob" email_only) seeded
    = Put_outcome seeded
        (store_Put KUser "/users/bob"
           (mkUser "bob" None (HashedPassword bob) [] "bob@example.com" "" "" "" "")
           seeded_contents) /\
  run (HandlePutUser "bob" email_only) fresh
    = Put_outcome fresh
        (store_Put KUser "/users/bob"
           (mkUser "bob" None [] [] "bob@example.com" "" "" "" "")
           (∅ : gmap string value)) /\
  run (HandlePutUser "bob" email_only) down
    = (with_logger down ["ERROR: store: backend unavailable"], InternalServerError).
Proof.
  split; [| split].
  - apply (proj1 (PUT_User_without_password (saml := Saml_example)
                    "bob" email_only
                    (mkUser "" None [] [] "bob@example.com" "" "" "" "") seeded
                    eq_refl eq_refl)
             seeded_contents bob).
    vm_compute. reflexivity.
  - apply (proj1 (proj2 (PUT_User_without_password (saml := Saml_example)
                           "bob" email_only
                           (mkUser "" None [] [] "bob@example.com" "" "" "" "") fresh
                           eq_refl eq_refl))).
    vm_compute. reflexivity.
  - apply (proj2 (proj2 (PUT_User_without_password (saml := Saml_example)
                           "bob" email_only
                           (mkUser "" None [] [] "bob@example.com" "" "" "" "") down
                           eq_refl eq_refl))
             Offline unavailable).
    + reflexivity.
    + discriminate.
Defined.

Lemma User_password_never_stored_nor_returned_witness :
  exists doc,
    snd (run (HandleGetUser "bob") (fst (run (HandlePutUser "bob" with_password) fresh)))
      = mkResponse StatusOK (Document doc) /\
    member "password" doc = None /\
    member "hashed_password" doc = None.
Proof.
  apply (proj2 (proj2 (User_password_never_stored_nor_returned
                         (saml := Saml_example) (R := nat) "bob"))
           MemoryStore_Get_fetches_Put with_password fresh).
  vm_compute. reflexivity.
Defined.


Lemma IDP_initiated_relay_state_precedence_witness :
  snd (run (HandleIDPInitiated "promo" "campaign42")
         (fst (run (HandlePutShortcut "promo" promo_url) fresh)))
    = ServeIDPInitiated "https://sp.example/meta" "campaign42".
Proof.
  assert (store_Get KShortcut "/shortcuts/promo"
            (store (fst (run (HandlePutShortcut "promo" promo_url) fresh)))
          = (store (fst (run (HandlePutShortcut "promo" promo_url) fresh)),
             Ok (mkShortcut "promo" "https://sp.example/meta" None true))) as HG
    by (vm_compute; reflexivity).
  apply (proj1 (proj2 (IDP_initiated_relay_state_precedence (saml := Saml_example)
                         "promo" "campaign42" _ _ _ HG))).
  - reflexivity.
  - reflexivity.
Defined.

(** * The handlers together *)

Section Operations.

Context {saml : Saml} {St R : Type} {backend : Store St} {hasher : Bcrypt R}.

Implicit Types (s : Server (St := St) (R := R)) (st : St).
Implicit Types (id key : string) (e : error) (req : request).

(** ** Calls and returns of a program *)

Lemma AllCalls_bind {A B : Type} (P : forall X : Type, op X -> Prop)
    (p : prog A) (f : A -> prog B) :
  AllCalls P p -> (forall a, AllCalls P (f a)) -> AllCalls P (bind p f).
Proof.
  intros Hp Hf. induction Hp as [a | X c k Hc Hk IH]; simpl.
  - apply Hf.
  - apply AllCalls_Call; [exact Hc | exact IH].
Qed.

Lemma AllCalls_responding (P : forall X : Type, op X -> Prop) (p : prog Response) :
  AllCalls P p -> AllCalls P (responding p).
Proof.
  intros Hp. unfold responding. apply (AllCalls_bind P p); [exact Hp |].
  intros r. apply AllCalls_Ret.
Qed.

Lemma AllRets_responding (P : Outcome -> Prop) (p : prog Response) :
  AllRets (fun r => P (Respond r)) p -> AllRets P (responding p).
Proof.
  intros Hp. unfold responding.
  induction Hp as [a Ha | X c k Hk IH]; simpl.
  - by apply AllRets_Ret.
  - apply AllRets_Call. exact IH.
Qed.

Lemma run_responding (p : prog Response) s :
  run (responding p) s = (fst (run p s), Respond (snd (run p s))).
Proof.
  unfold responding.
  change (run (bind p (fun r => Ret (Respond r))) s
          = (fst (run p s), Respond (snd (run p s)))).
  rewrite run_bind. by destruct (run p s).
Qed.

(** A property of the server that every call of a program keeps is kept
    by the program. *)
Lemma run_keeps {A : Type} (P : forall X : Type, op X -> Prop)
    (I : Server (St := St) (R := R) -> Prop) (p : prog A) :
  (forall (X : Type) (c : op X) s, P X c -> I s -> I (fst (exec c s))) ->
  AllCalls P p ->
  forall s, I s -> I (fst (run p s)).
Proof.
  intros Hexec Hp. induction Hp as [a | X c k Hc Hk IH]; intros s Hs; simpl.
  - exact Hs.
  - specialize (Hexec X c s Hc Hs).
    destruct (exec c s) as [s' x]. by apply IH.
Qed.

Ltac traces :=
  repeat first
    [ apply AllCalls_Ret
    | apply AllCalls_Call; [ simpl | intros ? ]
    | apply AllRets_Ret
    | apply AllRets_Call; intros ?
    | match goal with
      | |- AllCalls _ (match ?x with _ => _ end) => destruct x eqn:?
      | |- AllRets _ (match ?x with _ => _ end) => destruct x eqn:?
      end
    | progress cbn [mbind mret prog_bind prog_ret bind call errorf] ].

Ltac handlers :=
  unfold HandleGetService, HandlePutService, HandleDeleteService,
    HandleGetUser, HandlePutUser, HandlePutUser_store, HandleDeleteUser,
    HandleGetShortcut, HandlePutShortcut, HandleDeleteShortcut,
    HandleIDPInitiated.

(** ** What the requests call *)

(** X1. A request on the GET route of a Service, a User or a Shortcut
    makes no [Put] and no [Delete] on the Store and does not write the
    [serviceProviders] map, whatever the Store answers. *)
Theorem reading_requests_write_nothing req :
  reads_only req = true ->
  AllCalls (fun X c => writes_Store c = false /\ writes_registry c = false)
    (serve req).
Proof.
  intros Hreq. destruct req; try discriminate; unfold serve;
    try apply AllCalls_responding; handlers; traces; done.
Qed.

(** X2. A GET, PUT or DELETE of a Service, a User or a Shortcut touches
    one key of the Store: every [Get], [Put] and [Delete] it makes is on
    the key of its resource, /services/:id, /users/:id or /shortcuts/:id,
    and it never lists. *)
Theorem a_request_touches_one_key req :
  is_login req = false ->
  AllCalls (only_on (target req)) (serve req).
Proof.
  intros Hreq. destruct req; try discriminate; unfold serve;
    try apply AllCalls_responding; handlers; traces; done.
Qed.

(** X3. A PUT whose body does not decode answers 400 without a call to the
    Store or to bcrypt: for a Service when [getSPMetadata] fails, for a
    User or a Shortcut when the JSON decoder fails. *)
Theorem undecodable_body_never_reaches_the_Store id :
  (forall body e,
     getSPMetadata body = Err e ->
     AllCalls (fun X c => leaves_process c = false) (HandlePutService id body) /\
     AllRets (fun r => r = BadRequest) (HandlePutService id body)) /\
  (forall body e,
     Decode_User body = Err e ->
     AllCalls (fun X c => leaves_process c = false) (HandlePutUser id body) /\
     AllRets (fun r => r = BadRequest) (HandlePutUser id body)) /\
  (forall body e,
     Decode_Shortcut body = Err e ->
     AllCalls (fun X c => leaves_process c = false) (HandlePutShortcut id body) /\
     AllRets (fun r => r = BadRequest) (HandlePutShortcut id body)).
Proof.
  split; [| split]; intros body e H; handlers; rewrite H; split; traces; done.
Qed.

(** X4. The responses of a route: 200 or 500 on a GET route; 204, 400 or
    500 on a PUT route; 204 or 500 on a DELETE route; on a login route the
    request is handed to the protocol engine or answered 500.  No path
    answers 404. *)
Theorem statuses_of_a_route req :
  AllRets (fun o => In (status_of o) (statuses req)) (serve req).
Proof.
  destruct req; unfold serve; try apply AllRets_responding;
    handlers; traces; simpl; auto.
Qed.

(** ** The registry *)

Lemma serve_keeps_off_the_registry req :
  on_registry req = false ->
  AllCalls (fun X c => writes_registry c = false) (serve req).
Proof.
  intros Hreq. destruct req; try discriminate; unfold serve;
    try apply AllCalls_responding; handlers; traces; done.
Qed.

Lemma exec_keeps_the_registry (X : Type) (c : op X) s :
  writes_registry c = false ->
  serviceProviders (fst (exec c s)) = serviceProviders s.
Proof.
  destruct c as [k key | k key v | key | prefix | msg | password | id | id d | id];
    simpl; try discriminate; intros _; try reflexivity.
  - by destruct (store_Get k key (store s)).
  - by destruct (store_Put k key v (store s)).
  - by destruct (store_Delete key (store s)).
  - by destruct (store_List prefix (store s)).
  - by destruct (bcrypt_GenerateFromPassword password (entropy s)).
Qed.

(** X5. Only PUT and DELETE of a Service change the [serviceProviders]
    map: after any sequence of requests on the other routes of [request]
    (users, shortcuts, the GET of a service, the logins) the map is what
    it was. *)
Theorem only_Service_writes_change_the_registry (reqs : list request) s :
  forallb (fun req => negb (on_registry req)) reqs = true ->
  serviceProviders (serve_all reqs s) = serviceProviders s.
Proof.
  revert s. induction reqs as [| req rest IH]; intros s H; simpl in *; [done |].
  apply andb_prop in H as [Hreq Hrest]. apply negb_true_iff in Hreq.
  rewrite (IH _ Hrest).
  apply (run_keeps (fun X c => writes_registry c = false)
           (fun s' => serviceProviders s' = serviceProviders s) (serve req)).
  - intros X c s' Hc Hs'. by rewrite exec_keeps_the_registry.
  - by apply serve_keeps_off_the_registry.
  - reflexivity.
Qed.

Lemma serve_stores_under_EntityID req : AllCalls stores_under_EntityID (serve req).
Proof.
  destruct req; unfold serve; try apply AllCalls_responding;
    handlers; traces; done.
Qed.

Lemma initializeServices_range_stores_under_EntityID (serviceNames : list string) :
  AllCalls stores_under_EntityID (initializeServices_range serviceNames).
Proof.
  induction serviceNames as [| name rest IH]; simpl.
  - apply AllCalls_Ret.
  - traces; done.
Qed.

Lemma initializeServices_stores_under_EntityID :
  AllCalls stores_under_EntityID initializeServices.
Proof.
  unfold initializeServices. traces; try done.
  apply initializeServices_range_stores_under_EntityID.
Qed.

Lemma exec_keeps_Keyed (X : Type) (c : op X) s :
  stores_under_EntityID X c -> Keyed s -> Keyed (fst (exec c s)).
Proof.
  unfold Keyed. intros Hc Hs e d.
  destruct c as [k key | k key v | key | prefix | msg | password | id | id d' | id];
    simpl in *.
  - destruct (store_Get k key (store s)). apply Hs.
  - destruct (store_Put k key v (store s)). apply Hs.
  - destruct (store_Delete key (store s)). apply Hs.
  - destruct (store_List prefix (store s)). apply Hs.
  - apply Hs.
  - destruct (bcrypt_GenerateFromPassword password (entropy s)). apply Hs.
  - apply Hs.
  - subst id. rewrite lookup_insert. case_decide.
    + intros [= <-]. done.
    + apply Hs.
  - rewrite lookup_delete. case_decide; [done | apply Hs].
Qed.

Lemma serve_all_keeps_Keyed (reqs : list request) s :
  Keyed s -> Keyed (serve_all reqs s).
Proof.
  revert s. induction reqs as [| req rest IH]; intros s Hs; simpl; [done |].
  apply IH.
  apply (run_keeps stores_under_EntityID Keyed (serve req));
    [apply exec_keeps_Keyed | apply serve_stores_under_EntityID | exact Hs].
Qed.

(** X6. On the server [New] returns, and after any sequence of requests
    on it, [GetServiceProvider] only returns a descriptor whose EntityID
    is the id that was asked for. *)
Theorem GetServiceProvider_returns_the_EntityID_asked_for
    st (r : R) s0 (reqs : list request) (id : string) (d : EntityDescriptor) :
  New st r = Ok s0 ->
  snd (run (GetServiceProvider id) (serve_all reqs s0)) = Ok d ->
  EntityID d = id.
Proof.
  intros HNew Hd.
  assert (Keyed s0) as Hs0.
  { unfold New in HNew.
    assert (Keyed (fst (run initializeServices (literal st r)))) as HK.
    { apply (run_keeps stores_under_EntityID Keyed initializeServices);
        [apply exec_keeps_Keyed | apply initializeServices_stores_under_EntityID |].
      intros e' d'. unfold literal. simpl. by rewrite lookup_empty. }
    destruct (run initializeServices (literal st r)) as [s' [err |]];
      simplify_eq. exact HK. }
  pose proof (serve_all_keeps_Keyed reqs s0 Hs0) as HK.
  rewrite run_GetServiceProvider in Hd. cbn [snd] in Hd.
  destruct (serviceProviders (serve_all reqs s0) !! id) as [d' |] eqn:Hl;
    [| discriminate].
  injection Hd as ->. by apply HK.
Qed.

(** ** Startup *)

Lemma run_initializeServices_range (serviceNames : list string) :
  forall s st2 (services : list Service),
    fetch_all serviceNames (store s) = (st2, Ok services) ->
    run (initializeServices_range serviceNames) s =
      (mkServer st2 (logger s) (registered services (serviceProviders s)) (entropy s),
       None).
Proof.
  induction serviceNames as [| name rest IH]; intros s st2 services H; simpl in *.
  - injection H as <- <-. by destruct s.
  - destruct (store_Get KService ("/services/" +:+ name) (store s))
      as [st1 [service | err]]; [| discriminate].
    destruct (fetch_all rest st1) as [st2' [services' | err]] eqn:Hrest;
      [| discriminate].
    injection H as <- <-. simpl.
    rewrite (IH (with_serviceProviders (with_store s st1)
                   (<[EntityID (Metadata service) := Metadata service]>
                      (serviceProviders s)))
               st2' services' Hrest).
    reflexivity.
Qed.

Lemma run_initializeServices_range_Err (serviceNames : list string) :
  forall s st2 err,
    fetch_all serviceNames (store s) = (st2, Err err) ->
    snd (run (initializeServices_range serviceNames) s) = Some err.
Proof.
  induction serviceNames as [| name rest IH]; intros s st2 err H; simpl in *.
  - discriminate.
  - destruct (store_Get KService ("/services/" +:+ name) (store s))
      as [st1 [service | err']].
    + destruct (fetch_all rest st1) as [st2' [services' | err'']] eqn:Hrest;
        [discriminate |].
      injection H as <- <-. simpl.
      apply (IH (with_serviceProviders (with_store s st1)
                   (<[EntityID (Metadata service) := Metadata service]>
                      (serviceProviders s)))
               st2' err'' Hrest).
    + injection H as <- <-. reflexivity.
Qed.

Lemma registered_cons (first : Service) (rest : list Service)
    (m : gmap string EntityDescriptor) :
  registered (first :: rest) m
  = registered rest (<[EntityID (Metadata first) := Metadata first]> m).
Proof. reflexivity. Qed.

Lemma registered_elsewhere (services : list Service) :
  forall (m : gmap string EntityDescriptor) (id : string),
    id ∉ EntityIDs services -> registered services m !! id = m !! id.
Proof.
  induction services as [| service rest IH]; intros m id Hid; simpl; [done |].
  unfold EntityIDs in Hid. rewrite fmap_cons in Hid.
  apply not_elem_of_cons in Hid as [Hne Hid].
  unfold registered in *. simpl. rewrite (IH _ _ Hid).
  by rewrite lookup_insert_ne.
Qed.

Lemma registered_there (services : list Service) :
  forall (m : gmap string EntityDescriptor) (service : Service),
    service ∈ services ->
    exists service',
      service' ∈ services /\
      EntityID (Metadata service') = EntityID (Metadata service) /\
      registered services m !! EntityID (Metadata service) = Some (Metadata service').
Proof.
  induction services as [| first rest IH]; intros m service Hin.
  - by apply elem_of_nil in Hin.
  - destruct (decide (EntityID (Metadata service) ∈ EntityIDs rest)) as [Hlater | Hlast].
    + apply list_elem_of_fmap in Hlater as (later & Heq & Hlater).
      destruct (IH (<[EntityID (Metadata first) := Metadata first]> m) later Hlater)
        as (service' & Hin' & Heq' & Hlookup).
      exists service'. split; [by apply list_elem_of_further |].
      split; [congruence |]. rewrite registered_cons, Heq. exact Hlookup.
    + apply elem_of_cons in Hin as [-> | Hin].
      * exists first. split; [apply list_elem_of_here |]. split; [done |].
        rewrite registered_cons.
        rewrite (registered_elsewhere rest _ _ Hlast). apply lookup_insert_eq.
      * destruct Hlast.
        exact (list_elem_of_fmap_2 (fun service => EntityID (Metadata service))
                 rest service Hin).
Qed.

Lemma registered_once (services : list Service) :
  forall (m : gmap string EntityDescriptor) (service : Service),
    NoDup (EntityIDs services) ->
    service ∈ services ->
    registered services m !! EntityID (Metadata service) = Some (Metadata service).
Proof.
  induction services as [| first rest IH]; intros m service Hnd Hin.
  - by apply elem_of_nil in Hin.
  - unfold EntityIDs in Hnd. rewrite fmap_cons in Hnd.
    apply NoDup_cons in Hnd as [Hfirst Hnd].
    apply elem_of_cons in Hin as [-> | Hin].
    + rewrite registered_cons.
      rewrite (registered_elsewhere rest _ _ Hfirst). apply lookup_insert_eq.
    + rewrite registered_cons. apply (IH _ _ Hnd Hin).
Qed.

(** X7. [New] over a Store that lists the names and whose [Get]s fetch the
    services returns a server on which [GetServiceProvider] resolves the
    EntityID of every service fetched, to the metadata of a service
    fetched with that EntityID (to its own metadata when the EntityIDs
    are distinct), and returns [os.ErrNotExist] for every other id; in
    particular for every id when the Store lists nothing. *)
Theorem New_registers_the_stored_Services
    st st1 st2 (r : R) (serviceNames : list string) (services : list Service) :
  store_List "/services/" st = (st1, Ok serviceNames) ->
  fetch_all serviceNames st1 = (st2, Ok services) ->
  exists s,
    New st r = Ok s /\
    (forall service : Service,
       service ∈ services ->
       exists service' : Service,
         service' ∈ services /\
         EntityID (Metadata service') = EntityID (Metadata service) /\
         snd (run (GetServiceProvider (EntityID (Metadata service))) s)
           = Ok (Metadata service')) /\
    (NoDup (EntityIDs services) ->
     forall service : Service,
       service ∈ services ->
       snd (run (GetServiceProvider (EntityID (Metadata service))) s)
         = Ok (Metadata service)) /\
    (forall id,
       id ∉ EntityIDs services ->
       snd (run (GetServiceProvider id) s) = Err ErrNotExist).
Proof.
  intros HL HF.
  assert (run initializeServices (literal st r)
          = (mkServer st2 [] (registered services ∅) r, None)) as Hrun.
  { unfold initializeServices. simpl. rewrite HL. simpl.
    apply (run_initializeServices_range serviceNames
             (with_store (literal st r) st1) st2 services HF). }
  eexists. unfold New. rewrite Hrun. split; [reflexivity |].
  split; [| split].
  - intros service Hin.
    destruct (registered_there services ∅ service Hin) as (service' & Hin' & Heq & Hl).
    exists service'. split; [done |]. split; [done |].
    rewrite run_GetServiceProvider. cbn [snd serviceProviders]. by rewrite Hl.
  - intros Hnd service Hin.
    rewrite run_GetServiceProvider. cbn [snd serviceProviders].
    by rewrite (registered_once services ∅ service Hnd Hin).
  - intros id Hid.
    rewrite run_GetServiceProvider. cbn [snd serviceProviders].
    rewrite (registered_elsewhere services ∅ id Hid). by rewrite lookup_empty.
Qed.

(** X8. [New] returns the error of the Store, unchanged, when the [List]
    of /services/ fails or when the [Get] of a listed name fails; these
    are the only ways [New] fails. *)
Theorem New_fails_with_the_error_of_the_Store st (r : R) err :
  New st r = Err err <->
  (exists st1, store_List "/services/" st = (st1, Err err)) \/
  (exists st1 st2 serviceNames,
     store_List "/services/" st = (st1, Ok serviceNames) /\
     fetch_all serviceNames st1 = (st2, Err err)).
Proof.
  unfold New, initializeServices. simpl.
  destruct (store_List "/services/" st) as [st1 [serviceNames | err']] eqn:HL; simpl.
  - destruct (fetch_all serviceNames st1) as [st2 [services | err']] eqn:HF.
    + rewrite (run_initializeServices_range serviceNames
                 (with_store (literal st r) st1) st2 services HF).
      split; [discriminate |].
      intros [(st1' & H) | (st1' & st2' & names' & H1 & H2)]; [discriminate |].
      injection H1 as <- <-. congruence.
    + pose proof (run_initializeServices_range_Err serviceNames
                    (with_store (literal st r) st1) st2 err' HF) as Hrun.
      destruct (run (initializeServices_range serviceNames)
                  (with_store (literal st r) st1)) as [s' o].
      simpl in Hrun. subst o. split.
      * intros [= ->]. right. eauto.
      * intros [(st1' & H) | (st1' & st2' & names' & H1 & H2)]; [discriminate |].
        injection H1 as <- <-. congruence.
  - split.
    + intros [= ->]. left. eauto.
    + intros [(st1' & H) | (st1' & st2' & names' & H1 & H2)]; [| discriminate].
      congruence.
Qed.

Lemma initializeServices_range_reads_and_stays_silent (serviceNames : list string) :
  AllCalls (fun X c => writes_Store c = false /\ logged c = [])
    (initializeServices_range serviceNames).
Proof.
  induction serviceNames as [| name rest IH]; simpl.
  - apply AllCalls_Ret.
  - traces; done.
Qed.

(** X9. [initializeServices] only reads the Store, and logs nothing, not
    even the error it returns. *)
Theorem initializeServices_reads_and_stays_silent :
  AllCalls (fun X c => writes_Store c = false /\ logged c = [])
    initializeServices.
Proof.
  unfold initializeServices. traces; try done.
  apply initializeServices_range_reads_and_stays_silent.
Qed.

(** ** DELETE of a Service *)

Lemma HandleDeleteService_NoContent_inv id s :
  snd (run (HandleDeleteService id) s) = NoContent ->
  exists (service : Service) st st',
    store_Get KService ("/services/" +:+ id) (store s) = (st, Ok service) /\
    store_Delete ("/services/" +:+ id) st = (st', None).
Proof.
  intros H.
  destruct (store_Get KService ("/services/" +:+ id) (store s))
    as [st [service | e]] eqn:HG.
  - destruct (store_Delete ("/services/" +:+ id) st) as [st' [e |]] eqn:HD.
    + rewrite (run_HandleDeleteService_Delete_fails _ _ _ _ _ _ HG HD) in H.
      discriminate.
    + eauto.
  - rewrite (run_HandleDeleteService_Get_fails _ _ _ _ HG) in H. discriminate.
Qed.

(** X10. A Service DELETE whose [Get] fetches the stored service and whose
    [Delete] returns [nil] answers no-content; afterwards
    [GetServiceProvider] returns [os.ErrNotExist] for the EntityID of the
    service that was stored, whichever request had registered it, and
    answers as before for every other id. *)
Theorem DELETE_Service_unregisters_its_EntityID id (service : Service) s st st' :
  store_Get KService ("/services/" +:+ id) (store s) = (st, Ok service) ->
  store_Delete ("/services/" +:+ id) st = (st', None) ->
  snd (run (HandleDeleteService id) s) = NoContent /\
  snd (run (GetServiceProvider (EntityID (Metadata service)))
         (fst (run (HandleDeleteService id) s))) = Err ErrNotExist /\
  (forall other,
     other <> EntityID (Metadata service) ->
     snd (run (GetServiceProvider other) (fst (run (HandleDeleteService id) s)))
     = snd (run (GetServiceProvider other) s)).
Proof.
  intros HG HD.
  rewrite (run_HandleDeleteService_Delete_succeeds _ _ _ _ _ HG HD).
  cbn [fst snd]. split; [reflexivity |]. split.
  - rewrite run_GetServiceProvider. cbn [snd serviceProviders with_serviceProviders].
    by rewrite lookup_delete_eq.
  - intros other Hother. rewrite !run_GetServiceProvider.
    cbn [snd serviceProviders with_serviceProviders].
    by rewrite lookup_delete_ne.
Qed.

(** X11. On a Store whose Get fetches what was Put, a Service PUT and a
    Service DELETE of the same id that both answer no-content leave the
    [serviceProviders] map as it was before the PUT, less the entry of the
    EntityID of the metadata: the map it was, when that EntityID was not
    registered. *)
Theorem PUT_then_DELETE_Service id body (m : EntityDescriptor) s :
  Get_fetches_Put ->
  getSPMetadata body = Ok m ->
  snd (run (HandlePutService id body) s) = NoContent ->
  let s1 := fst (run (HandlePutService id body) s) in
  snd (run (HandleDeleteService id) s1) = NoContent ->
  let s2 := fst (run (HandleDeleteService id) s1) in
  serviceProviders s2 = delete (EntityID m) (serviceProviders s) /\
  (serviceProviders s !! EntityID m = None ->
   serviceProviders s2 = serviceProviders s).
Proof.
  intros law Hm HPUT s1 HDEL s2. subst s1 s2.
  destruct (HandlePutService_NoContent_inv _ _ _ HPUT) as (m' & st & Hm' & HP).
  assert (m' = m) as -> by congruence.
  rewrite (run_HandlePutService_Put_succeeds _ _ _ _ _ Hm HP) in HDEL |- *.
  cbn [fst] in HDEL |- *.
  destruct (HandleDeleteService_NoContent_inv _ _ HDEL)
    as (service & st1 & st2 & HG & HD).
  destruct (law KService _ _ _ _ HP) as [st1' HG'].
  cbn [store with_store with_serviceProviders] in HG.
  rewrite HG' in HG. injection HG as <- <-.
  rewrite (run_HandleDeleteService_Delete_succeeds _ (mkService "" m) _ st1' st2);
    [| exact HG' | exact HD].
  cbn [fst serviceProviders with_serviceProviders with_store Metadata].
  rewrite delete_insert_eq. split; [reflexivity |].
  intros Hnone. by apply delete_id.
Qed.

(** ** PUT of a User with a password *)

(** X12. A User PUT whose body has a password never fetches the existing
    record.  When bcrypt returns a credential, the record put carries
    that credential, whatever [hashed_password] the body had; when bcrypt
    fails, the request ends with the 500 response, the error logged, and
    the Store is not called. *)
Theorem PUT_User_with_password id body (u : User) (password : string) s :
  Decode_User body = Ok u ->
  PlaintextPassword u = Some password ->
  AllCalls (fun X c => match c with Get _ _ => False | _ => True end)
    (HandlePutUser id body) /\
  (forall r' hashed,
     bcrypt_GenerateFromPassword password (entropy s) = (r', Ok hashed) ->
     run (HandlePutUser id body) s =
       Put_outcome (with_entropy s r')
         (store_Put KUser ("/users/" +:+ id)
            (mkUser id None hashed (Groups u) (Email u)
               (CommonName u) (Surname u) (GivenName u) (ScopedAffiliation u))
            (store s))) /\
  (forall r' e,
     bcrypt_GenerateFromPassword password (entropy s) = (r', Err e) ->
     run (HandlePutUser id body) s =
       (with_logger (with_entropy s r') (logger s ++ ["ERROR: " +:+ Error e]),
        InternalServerError)).
Proof.
  intros Hu Hp. split; [| split].
  - handlers. rewrite Hu. cbn [set_User_Name PlaintextPassword]. rewrite Hp.
    traces; done.
  - intros r' hashed Hb. rewrite (run_HandlePutUser_password _ _ _ _ _ Hu Hp), Hb.
    reflexivity.
  - intros r' e Hb. rewrite (run_HandlePutUser_password _ _ _ _ _ Hu Hp), Hb.
    reflexivity.
Qed.

(** ** Documents and records *)

Lemma into_elements_JString (field : string) (l backing : list string) :
  into_elements (into_string field) "" (List.map JString l) backing = Ok l.
Proof.
  revert backing. induction l as [| x l IH]; intros backing; simpl; [done |].
  by rewrite IH.
Qed.

Lemma Decode_Encode_Shortcut (shortcut : Shortcut) :
  Decode_Shortcut (Some (Encode_Shortcut shortcut)) = Ok shortcut.
Proof. destruct shortcut as [n sp [rs |] [|]]; reflexivity. Qed.

Lemma Decode_Encode_User (u : User) :
  HashedPassword u = [] ->
  Decode_User (Some (Encode_User u)) = Ok u.
Proof.
  destruct u as [n p h g e c sn gn sa]. simpl. intros ->.
  unfold Decode_User, Decode, Encode_User, omitempty_string.
  destruct p as [p |], g as [| g1 g], e as [| e1 e], c as [| c1 c],
    sn as [| sn1 sn], gn as [| gn1 gn], sa as [| sa1 sa];
    cbn; rewrite ?into_elements_JString; reflexivity.
Qed.

(** X13. The JSON document of a record decodes to the record: for every
    Shortcut, and for every User without credential (the records
    [HandleGetUser] encodes), whose strings are text; members left out by
    omitempty decode to the empty field they stand for. *)
Theorem Decode_inverts_Encode :
  (forall shortcut : Shortcut,
     Text_Shortcut shortcut = true ->
     Decode_Shortcut (Some (Encode_Shortcut shortcut)) = Ok shortcut) /\
  (forall u : User,
     Text_User u = true ->
     HashedPassword u = [] ->
     Decode_User (Some (Encode_User u)) = Ok u).
Proof.
  split.
  - intros shortcut _. apply Decode_Encode_Shortcut.
  - intros u _. apply Decode_Encode_User.
Qed.

(** X14. Writing back what GET returned stores the record unchanged.  A
    User PUT at the id of a stored record without plaintext password,
    with the document [HandleGetUser] returns for it as body, puts the
    stored record itself, credential included; a Shortcut PUT with the
    document of a shortcut named by the id puts that shortcut. *)
Theorem PUT_of_the_GET_document_stores_the_same_record id s :
  (forall st (u : User),
     store_Get KUser ("/users/" +:+ id) (store s) = (st, Ok u) ->
     User_Name u = id ->
     PlaintextPassword u = None ->
     Text_User u = true ->
     run (HandlePutUser id (Some (Encode_User (set_HashedPassword [] u)))) s
     = Put_outcome (with_store s st) (store_Put KUser ("/users/" +:+ id) u st)) /\
  (forall shortcut : Shortcut,
     Shortcut_Name shortcut = id ->
     Text_Shortcut shortcut = true ->
     run (HandlePutShortcut id (Some (Encode_Shortcut shortcut))) s
     = match store_Put KShortcut ("/shortcuts/" +:+ id) shortcut (store s) with
       | (st', None) => (with_store s st', NoContent)
       | (st', Some _) => (with_store s st', InternalServerError)
       end).
Proof.
  split.
  - intros st u HG Hname Hp _.
    assert (Decode_User (Some (Encode_User (set_HashedPassword [] u)))
            = Ok (set_HashedPassword [] u)) as Hd
      by (by apply Decode_Encode_User).
    rewrite (run_HandlePutUser_existing id _ _ u s st Hd); [| by destruct u | exact HG].
    destruct u as [n p h g e c sn gn sa]. simpl in *. by subst.
  - intros shortcut Hname _. unfold HandlePutShortcut.
    rewrite Decode_Encode_Shortcut.
    assert (set_Shortcut_Name id shortcut = shortcut) as ->
      by (destruct shortcut; simpl in *; by subst).
    simpl.
    by destruct (store_Put KShortcut ("/shortcuts/" +:+ id) shortcut (store s))
      as [st' [e |]].
Qed.

(** ** DELETE, then GET *)

Lemma DELETE_NoContent_inv (k : kind) id s :
  snd (run (DELETE k id) s) = NoContent ->
  exists st,
    store_Delete (path k id) st = (store (fst (run (DELETE k id) s)), None).
Proof.
  destruct k; cbn [DELETE path].
  - intros H. destruct (HandleDeleteService_NoContent_inv _ _ H)
      as (service & st & st' & HG & HD).
    rewrite (run_HandleDeleteService_Delete_succeeds _ _ _ _ _ HG HD). eauto.
  - unfold HandleDeleteUser. simpl.
    destruct (store_Delete ("/users/" +:+ id) (store s)) as [st' [e |]] eqn:HD;
      simpl; [discriminate |]. eauto.
  - unfold HandleDeleteShortcut. simpl.
    destruct (store_Delete ("/shortcuts/" +:+ id) (store s)) as [st' [e |]] eqn:HD;
      simpl; [discriminate |]. eauto.
Qed.

(** X15. On a Store whose [Get] reports ErrNotFound after a [Delete], the
    GET that follows a DELETE of the same Service, User or Shortcut that
    answered no-content answers 500, the response of a failing Store. *)
Theorem GET_after_DELETE_answers_500 (k : kind) id s :
  Get_after_Delete ->
  snd (run (DELETE k id) s) = NoContent ->
  snd (run (GET k id) (fst (run (DELETE k id) s))) = InternalServerError.
Proof.
  intros law H. destruct (DELETE_NoContent_inv _ _ _ H) as [st HD].
  destruct (law _ _ _ HD k) as [st'' HG].
  exact (run_GET_Err k id ErrNotFound _ st'' HG).
Qed.

(** ** PUT, then GET *)

(** A User PUT that answers no-content decoded its body and put,
    successfully, the record named by the id with the profile of the
    body. *)
Lemma HandlePutUser_NoContent_record id body s :
  snd (run (HandlePutUser id body) s) = NoContent ->
  exists (u : User) (hashed : list byte) st,
    Decode_User body = Ok u /\
    store_Put KUser ("/users/" +:+ id)
      (mkUser id None hashed (Groups u) (Email u)
         (CommonName u) (Surname u) (GivenName u) (ScopedAffiliation u)) st
    = (store (fst (run (HandlePutUser id body) s)), None).
Proof.
  intros H.
  destruct (Decode_User body) as [u | e] eqn:Hu.
  2: { rewrite (run_HandlePutUser_BadRequest _ _ _ _ Hu) in H. discriminate. }
  exists u.
  destruct (PlaintextPassword u) as [password |] eqn:Hp.
  - rewrite (run_HandlePutUser_password _ _ _ _ _ Hu Hp) in H |- *.
    destruct (bcrypt_GenerateFromPassword password (entropy s)) as [r [hashed | e]];
      [| discriminate].
    destruct (Put_outcome_NoContent_inv _ _ H) as [Hnil Hst].
    eexists _, _. split; [reflexivity |].
    rewrite Hst, <- Hnil. apply surjective_pairing.
  - destruct (store_Get KUser ("/users/" +:+ id) (store s)) as [st [existing | e]] eqn:HG.
    + rewrite (run_HandlePutUser_existing _ _ _ _ _ _ Hu Hp HG) in H |- *.
      destruct (Put_outcome_NoContent_inv _ _ H) as [Hnil Hst].
      eexists _, _. split; [reflexivity |].
      rewrite Hst, <- Hnil. apply surjective_pairing.
    + destruct (decide (e = ErrNotFound)) as [-> | He].
      * rewrite (run_HandlePutUser_NotFound _ _ _ _ _ Hu Hp HG) in H |- *.
        destruct (Put_outcome_NoContent_inv _ _ H) as [Hnil Hst].
        eexists _, _. split; [reflexivity |].
        rewrite Hst, <- Hnil. apply surjective_pairing.
      * rewrite (run_HandlePutUser_Get_fails _ _ _ _ _ _ Hu Hp HG He) in H.
        discriminate.
Qed.

(** X16. On a Store whose Get fetches what was Put, the GET that follows
    a Shortcut PUT or a User PUT that answered no-content answers 200 with
    the document of the record of the body, named by the id of the URL;
    the document of a User has its profile and no credential. *)
Theorem GET_after_PUT_returns_the_record_of_the_body id s :
  Get_fetches_Put ->
  ValidString id = true ->
  (forall body,
     snd (run (HandlePutShortcut id body) s) = NoContent ->
     exists shortcut : Shortcut,
       Decode_Shortcut body = Ok shortcut /\
       snd (run (HandleGetShortcut id) (fst (run (HandlePutShortcut id body) s)))
       = mkResponse StatusOK
           (Document (Encode_Shortcut (set_Shortcut_Name id shortcut)))) /\
  (forall body,
     snd (run (HandlePutUser id body) s) = NoContent ->
     exists u : User,
       Decode_User body = Ok u /\
       snd (run (HandleGetUser id) (fst (run (HandlePutUser id body) s)))
       = mkResponse StatusOK
           (Document
              (Encode_User
                 (mkUser id None [] (Groups u) (Email u) (CommonName u)
                    (Surname u) (GivenName u) (ScopedAffiliation u))))).
Proof.
  intros law _. split.
  - intros body H.
    destruct (HandlePutShortcut_NoContent_inv _ _ _ H) as (shortcut & Hd & HP).
    exists shortcut. split; [exact Hd |].
    destruct (law KShortcut _ _ _ _ HP) as [st' HG].
    unfold HandleGetShortcut. simpl. rewrite HG. reflexivity.
  - intros body H.
    destruct (HandlePutUser_NoContent_record _ _ _ H) as (u & hashed & st & Hd & HP).
    exists u. split; [exact Hd |].
    destruct (law KUser _ _ _ _ HP) as [st' HG].
    rewrite (run_HandleGetUser_Ok _ _ _ _ HG). reflexivity.
Qed.

(** ** The logger *)

Lemma Logs_responding (P : list string -> Outcome -> Prop) (l : list string)
    (p : prog Response) :
  Logs (fun l' r => P l' (Respond r)) l p -> Logs P l (responding p).
Proof.
  intros Hp. unfold responding.
  induction Hp as [l' a Ha | l' X c k Hk IH]; simpl.
  - by apply Logs_Ret.
  - apply Logs_Call. exact IH.
Qed.

Lemma exec_logs (X : Type) (c : op X) s :
  logger (fst (exec c s)) = logger s ++ logged c.
Proof.
  destruct c as [k key | k key v | key | prefix | msg | password | id | id d | id];
    simpl; rewrite ?app_nil_r; try reflexivity.
  - by destruct (store_Get k key (store s)).
  - by destruct (store_Put k key v (store s)).
  - by destruct (store_Delete key (store s)).
  - by destruct (store_List prefix (store s)).
  - by destruct (bcrypt_GenerateFromPassword password (entropy s)).
Qed.

Lemma run_Logs {A : Type} (P : list string -> A -> Prop) (l : list string) (p : prog A) :
  Logs P l p ->
  forall s,
    exists l',
      logger (fst (run p s)) = logger s ++ l' /\ P (l ++ l') (snd (run p s)).
Proof.
  intros Hp. induction Hp as [l a Ha | l X c k Hk IH]; intros s; simpl.
  - exists []. by rewrite !app_nil_r.
  - pose proof (exec_logs X c s) as Hc.
    destruct (exec c s) as [s' x]. simpl in Hc.
    destruct (IH x s') as (l' & Hl & HP).
    exists (logged c ++ l'). rewrite Hl, Hc, !app_assoc. done.
Qed.

Ltac logs :=
  repeat first
    [ apply Logs_Ret
    | apply Logs_Call; intros ?
    | match goal with
      | |- Logs _ _ (match ?x with _ => _ end) => destruct x eqn:?
      end
    | progress cbn [mbind mret prog_bind prog_ret bind call errorf] ].

(** X17. What a request logs.  The handlers of a single Shortcut never
    log.  A request on any other route logs one line, ERROR: followed by
    the message of the error, exactly when it fails with 400 or 500, and
    nothing when it succeeds or is handed to the protocol engine. *)
Theorem a_failure_is_logged_once req s :
  let s' := fst (run (serve req) s) in
  let o := snd (run (serve req) s) in
  if on_shortcut req then logger s' = logger s
  else if failed o then exists msg, logger s' = logger s ++ ["ERROR: " +:+ msg]
  else logger s' = logger s.
Proof.
  intros s' o. subst s' o.
  assert (Logs (fun l o =>
                  if on_shortcut req then l = []
                  else if failed o then exists msg, l = ["ERROR: " +:+ msg]
                  else l = []) [] (serve req)) as HL.
  { destruct req; unfold serve; try apply Logs_responding;
      handlers; logs; simpl; eauto. }
  destruct (run_Logs _ _ _ HL s) as (l' & Hl & HP). simpl in HP.
  destruct (on_shortcut req).
  - subst l'. by rewrite app_nil_r in Hl.
  - destruct (failed (snd (run (serve req) s))).
    + destruct HP as [msg ->]. eauto.
    + subst l'. by rewrite app_nil_r in Hl.
Qed.

(** ** Login *)

(** X18. A login whose shortcut the Store does not fetch is answered 500,
    the error logged, and is not handed to the protocol engine; and the
    handler never looks the service provider up in the [serviceProviders]
    map before it hands a request off. *)
Theorem login_without_shortcut_is_not_handed_off shortcutName state s :
  (forall st e,
     store_Get KShortcut ("/shortcuts/" +:+ shortcutName) (store s) = (st, Err e) ->
     run (HandleIDPInitiated shortcutName state) s =
       (with_logger (with_store s st) (logger s ++ ["ERROR: " +:+ Error e]),
        Respond InternalServerError)) /\
  (forall sp relayState,
     snd (run (HandleIDPInitiated shortcutName state) s)
       = ServeIDPInitiated sp relayState ->
     exists st (shortcut : Shortcut),
       store_Get KShortcut ("/shortcuts/" +:+ shortcutName) (store s)
         = (st, Ok shortcut) /\
       ServiceProviderID shortcut = sp) /\
  AllCalls (fun X c => match c with LoadServiceProvider _ => False | _ => True end)
    (HandleIDPInitiated shortcutName state).
Proof.
  split; [| split].
  - intros st e HG. unfold HandleIDPInitiated. simpl. rewrite HG. reflexivity.
  - intros sp relayState H.
    destruct (store_Get KShortcut ("/shortcuts/" +:+ shortcutName) (store s))
      as [st [shortcut | e]] eqn:HG.
    + rewrite (run_HandleIDPInitiated_Ok _ _ _ _ _ HG) in H.
      injection H as <- _. eauto.
    + unfold HandleIDPInitiated in H. simpl in H. rewrite HG in H. discriminate.
  - handlers. traces; done.
Qed.

End Operations.

(** * The handlers together, on the scenarios *)

Lemma MemoryStore_Get_after_Delete {saml : Saml} :
  Get_after_Delete (St := gmap string value).
Proof.
  intros key st st' H k. simpl in H. unfold MemoryStore_Delete in H.
  destruct (st !! key) eqn:Hkey; [| discriminate].
  injection H as <-. exists (delete key st).
  simpl. unfold MemoryStore_Get. by rewrite lookup_delete_eq.
Qed.

Lemma reading_requests_write_nothing_witness :
  AllCalls (fun X c => writes_Store c = false /\ writes_registry c = false)
    (serve (saml := Saml_example) (GetUser "bob")).
Proof.
  apply (reading_requests_write_nothing (saml := Saml_example) (GetUser "bob")).
  reflexivity.
Defined.

Lemma a_request_touches_one_key_witness :
  AllCalls (only_on "/users/bob")
    (serve (saml := Saml_example) (PutUser "bob" with_password)).
Proof.
  apply (a_request_touches_one_key (saml := Saml_example)
           (PutUser "bob" with_password)).
  reflexivity.
Defined.

Lemma undecodable_body_never_reaches_the_Store_witness :
  AllCalls (fun X c => leaves_process c = false)
    (HandlePutUser (saml := Saml_example) "bob" None) /\
  AllRets (fun r => r = BadRequest)
    (HandlePutUser (saml := Saml_example) "bob" None).
Proof.
  apply (proj1 (proj2 (undecodable_body_never_reaches_the_Store
                         (saml := Saml_example) "bob"))
           None (ErrOther "json: syntax error")).
  reflexivity.
Defined.

Lemma only_Service_writes_change_the_registry_witness :
  serviceProviders
    (serve_all [PutUser "bob" email_only; DeleteShortcut "promo";
                GetService "sp1"; Login "promo" "campaign42"]
       (fst (run (HandlePutService "sp1" "https://sp.example/meta") fresh)))
  = serviceProviders (fst (run (HandlePutService "sp1" "https://sp.example/meta") fresh)).
Proof.
  apply (only_Service_writes_change_the_registry (saml := Saml_example)).
  reflexivity.
Defined.

Lemma GetServiceProvider_returns_the_EntityID_asked_for_witness :
  EntityID (Saml := Saml_example) old_meta = "https://old.example/meta".
Proof.
  apply (GetServiceProvider_returns_the_EntityID_asked_for (saml := Saml_example)
           seeded_contents 0 (fst (run initializeServices seeded))
           [PutService "sp2" "https://old.example/meta"; DeleteUser "bob"]
           "https://old.example/meta" old_meta).
  - vm_compute. reflexivity.
  - vm_compute. reflexivity.
Defined.

Lemma New_registers_the_stored_Services_witness :
  exists s : Server (saml := Saml_example),
    New seeded_contents 0 = Ok s /\
    snd (run (GetServiceProvider "https://sp.example/meta") s) = Ok sp_meta /\
    snd (run (GetServiceProvider "https://old.example/meta") s) = Err ErrNotExist.
Proof.
  destruct (New_registers_the_stored_Services (saml := Saml_example)
              seeded_contents seeded_contents seeded_contents 0 ["sp1"]
              [mkService (saml := Saml_example) "" sp_meta])
    as (s & HNew & _ & Honce & Hother).
  - vm_compute. reflexivity.
  - vm_compute. reflexivity.
  - exists s. split; [exact HNew |]. split.
    + apply (Honce ltac:(apply NoDup_singleton)
               (mkService (saml := Saml_example) "" sp_meta)).
      apply list_elem_of_here.
    + apply Hother. intros Hin. apply list_elem_of_singleton in Hin. discriminate.
Defined.

Lemma New_fails_with_the_error_of_the_Store_witness :
  New (saml := Saml_example) Offline 0 = Err unavailable.
Proof.
  apply (proj2 (New_fails_with_the_error_of_the_Store (saml := Saml_example)
                  Offline 0 unavailable)).
  left. exists Offline. reflexivity.
Defined.

Lemma DELETE_Service_unregisters_its_EntityID_witness :
  snd (run (HandleDeleteService "sp1")
         (fst (run (HandlePutService "sp1" "https://sp.example/meta") fresh)))
    = NoContent /\
  snd (run (GetServiceProvider "https://sp.example/meta")
         (fst (run (HandleDeleteService "sp1")
                 (fst (run (HandlePutService "sp1" "https://sp.example/meta") fresh)))))
    = Err ErrNotExist.
Proof.
  destruct (DELETE_Service_unregisters_its_EntityID (saml := Saml_example)
              "sp1" (mkService (saml := Saml_example) "" sp_meta)
              (fst (run (HandlePutService "sp1" "https://sp.example/meta") fresh))
              (<["/services/sp1" :=
                   VService (mkService (saml := Saml_example) "" sp_meta)]> ∅)
              ∅)
    as (Hstatus & Hgone & _).
  - vm_compute. reflexivity.
  - vm_compute. reflexivity.
  - split; [exact Hstatus | exact Hgone].
Defined.

Lemma PUT_then_DELETE_Service_witness :
  serviceProviders
    (fst (run (HandleDeleteService "sp1")
            (fst (run (HandlePutService "sp1" "https://sp.example/meta") fresh))))
  = serviceProviders fresh.
Proof.
  apply (PUT_then_DELETE_Service (saml := Saml_example)
           "sp1" "https://sp.example/meta" sp_meta fresh).
  - apply MemoryStore_Get_fetches_Put.
  - reflexivity.
  - vm_compute. reflexivity.
  - vm_compute. reflexivity.
  - reflexivity.
Defined.

Lemma PUT_User_with_password_witness :
  run (HandlePutUser "bob" with_password) fresh
  = Put_outcome (with_entropy fresh 1)
      (store_Put KUser "/users/bob"
         (mkUser "bob" None
            (Base64.byte_of 0 :: List.rev (list_byte_of_string "s3cret"))
            ["staff"] "" "" "" "" "")
         (store fresh)).
Proof.
  apply (proj1 (proj2 (PUT_User_with_password (saml := Saml_example)
                         "bob" with_password
                         (mkUser "robert" (Some "s3cret") [] ["staff"] "" "" "" "" "")
                         "s3cret" fresh eq_refl eq_refl))).
  reflexivity.
Defined.

Lemma Decode_inverts_Encode_witness :
  Decode_User (Some (Encode_User (set_HashedPassword [] bob)))
  = Ok (set_HashedPassword [] bob).
Proof.
  apply (proj2 Decode_inverts_Encode (set_HashedPassword [] bob)).
  - vm_compute. reflexivity.
  - reflexivity.
Defined.

Lemma PUT_of_the_GET_document_stores_the_same_record_witness :
  run (HandlePutUser "bob" (Some (Encode_User (set_HashedPassword [] bob)))) seeded
  = Put_outcome seeded (store_Put KUser "/users/bob" bob seeded_contents).
Proof.
  apply (proj1 (PUT_of_the_GET_document_stores_the_same_record
                  (saml := Saml_example) "bob" seeded)
           seeded_contents bob).
  - vm_compute. reflexivity.
  - reflexivity.
  - reflexivity.
  - vm_compute. reflexivity.
Defined.

Lemma GET_after_DELETE_answers_500_witness :
  snd (run (GET KUser "bob") (fst (run (DELETE KUser "bob") seeded)))
  = InternalServerError.
Proof.
  apply (GET_after_DELETE_answers_500 (saml := Saml_example) KUser "bob" seeded).
  - apply MemoryStore_Get_after_Delete.
  - vm_compute. reflexivity.
Defined.

Lemma GET_after_PUT_returns_the_record_of_the_body_witness :
  exists shortcut : Shortcut,
    Decode_Shortcut promo_url = Ok shortcut /\
    snd (run (HandleGetShortcut "promo")
           (fst (run (HandlePutShortcut "promo" promo_url) fresh)))
    = mkResponse StatusOK (Document (Encode_Shortcut (set_Shortcut_Name "promo" shortcut))).
Proof.
  apply (proj1 (GET_after_PUT_returns_the_record_of_the_body
                  (saml := Saml_example) "promo" fresh
                  MemoryStore_Get_fetches_Put eq_refl)
           promo_url).
  vm_compute. reflexivity.
Defined.

Lemma login_without_shortcut_is_not_handed_off_witness :
  run (HandleIDPInitiated "promo" "campaign42") fresh
  = (with_logger fresh ["ERROR: not found"], Respond InternalServerError).
Proof.
  apply (proj1 (login_without_shortcut_is_not_handed_off (saml := Saml_example)
                  "promo" "campaign42" fresh)
           (store fresh) ErrNotFound).
  vm_compute. reflexivity.
Defined.
